(** * The Research Archive: the research pipeline and its orchestrator

    A shallow embedding of [src/types.ts], [src/services/geminiService.ts]
    and of the state handling of [src/App.tsx], followed by the properties
    of the pipeline that the specification states.

    JavaScript strings are sequences of UTF-16 code units; they are
    modelled as lists of code units ([N]).  The external text-generation
    service is a field of the [Runtime] record: every theorem that
    quantifies over a [Runtime] holds for every behaviour of the service.
    Logging to the console and the delay of the mock search have no
    effect on the state and are left out. *)

From Stdlib Require Import NArith String Ascii.
From stdpp Require Import base option list.

Local Open Scope N_scope.

Set Warnings "-register-all".

(** ** JavaScript strings *)

Abbreviation jsstring := (list N).

(** The code units of an ASCII literal. *)
Fixpoint js (s : string) : jsstring :=
  match s with
  | EmptyString => []
  | String a r => N_of_ascii a :: js r
  end.

(** A literal in which the apostrophe stands for the double quote. *)
Definition jsq (s : string) : jsstring :=
  (fun c => if c =? 39 then 34 else c) <$> js s.

Definition dquote : jsstring := [34].
Definition newline : jsstring := [10].

(** A string is falsy exactly when it is empty. *)
Definition truthy (s : jsstring) : bool :=
  match s with [] => false | _ :: _ => true end.

(** [a || b] on strings. *)
Definition or_else (a b : jsstring) : jsstring :=
  if truthy a then a else b.

(** [a || b] where either operand may be [undefined]. *)
Definition or_undef (a b : option jsstring) : option jsstring :=
  match a with
  | Some s => if truthy s then Some s else b
  | None => b
  end.

(** ECMAScript WhiteSpace and LineTerminator code units, the ones that
    [String.prototype.trim] removes. *)
Definition isWhiteSpace (c : N) : bool :=
  ((9 <=? c) && (c <=? 13))
  || (c =? 32) || (c =? 160) || (c =? 5760)
  || ((8192 <=? c) && (c <=? 8202))
  || (c =? 8232) || (c =? 8233) || (c =? 8239) || (c =? 8287)
  || (c =? 12288) || (c =? 65279).

Fixpoint trimStart (s : jsstring) : jsstring :=
  match s with
  | [] => []
  | c :: r => if isWhiteSpace c then trimStart r else s
  end.

Definition trimEnd (s : jsstring) : jsstring :=
  reverse (trimStart (reverse s)).

Definition trim (s : jsstring) : jsstring := trimEnd (trimStart s).

(** [Array.prototype.join] on an array of strings. *)
Fixpoint join (sep : jsstring) (l : list jsstring) : jsstring :=
  match l with
  | [] => []
  | [s] => s
  | s :: r => s ++ sep ++ join sep r
  end.

(** A query the orchestrator refuses: [!query.trim()]. *)
Definition blank (s : jsstring) : bool := negb (truthy (trim s)).

(** ** JSON values and [JSON.parse]

    The value [JSON.parse] builds.  A number keeps its lexeme: its
    conversion to a double is not modelled.  An object is the list of its
    properties; only property lookup is modelled, not enumeration order. *)

Inductive JSON : Type :=
| JNull
| JBool (b : bool)
| JNumber (lexeme : jsstring)
| JString (s : jsstring)
| JArray (items : list JSON)
| JObject (props : list (jsstring * JSON)).

(** The value [null] of JavaScript is the one [JSON.parse] yields for the
    text [null]. *)
Definition null : JSON := JNull.

Fixpoint getProp (k : jsstring) (props : list (jsstring * JSON)) : option JSON :=
  match props with
  | [] => None
  | (k', v) :: r => if decide (k = k') then Some v else getProp k r
  end.

(** Defining a property: a repeated key overwrites the earlier value. *)
Fixpoint setProp (k : jsstring) (v : JSON) (props : list (jsstring * JSON))
  : list (jsstring * JSON) :=
  match props with
  | [] => [(k, v)]
  | (k', v') :: r =>
      if decide (k = k') then (k, v) :: r else (k', v') :: setProp k v r
  end.

(** [o.k] for a parsed value: [undefined] ([None]) when [o] is not an
    object or has no such property. *)
Definition field (k : jsstring) (o : JSON) : option JSON :=
  match o with
  | JObject props => getProp k props
  | _ => None
  end.

Module JSONText.

(** JSON insignificant whitespace: tab, line feed, carriage return, space. *)
Definition isWs (c : N) : bool :=
  (c =? 9) || (c =? 10) || (c =? 13) || (c =? 32).

Fixpoint skipWs (s : jsstring) : jsstring :=
  match s with
  | [] => []
  | c :: r => if isWs c then skipWs r else s
  end.

Definition isDigit (c : N) : bool := (48 <=? c) && (c <=? 57).

Definition hexDigit (c : N) : option N :=
  if isDigit c then Some (c - 48)
  else if (97 <=? c) && (c <=? 102) then Some (c - 87)
  else if (65 <=? c) && (c <=? 70) then Some (c - 55)
  else None.

Definition hex4 (a b c d : N) : option N :=
  match hexDigit a, hexDigit b, hexDigit c, hexDigit d with
  | Some x, Some y, Some z, Some w => Some (((x * 16 + y) * 16 + z) * 16 + w)
  | _, _, _, _ => None
  end.

(** The character a two-character escape stands for. *)
Definition unescape (e : N) : option N :=
  if e =? 34 then Some 34          (* quotation mark *)
  else if e =? 92 then Some 92     (* reverse solidus *)
  else if e =? 47 then Some 47     (* solidus *)
  else if e =? 98 then Some 8      (* b: backspace *)
  else if e =? 102 then Some 12    (* f: form feed *)
  else if e =? 110 then Some 10    (* n: line feed *)
  else if e =? 114 then Some 13    (* r: carriage return *)
  else if e =? 116 then Some 9     (* t: tab *)
  else None.

(** The characters of a string literal, after its opening quote, up to
    and including the closing quote. *)
Fixpoint parseChars (s : jsstring) : option (jsstring * jsstring) :=
  match s with
  | [] => None
  | c :: r =>
      if c =? 34 then Some ([], r)
      else if c =? 92 then
        match r with
        | [] => None
        | e :: r1 =>
            if e =? 117 then
              match r1 with
              | h1 :: h2 :: h3 :: h4 :: r2 =>
                  match hex4 h1 h2 h3 h4, parseChars r2 with
                  | Some u, Some (str, rest) => Some (u :: str, rest)
                  | _, _ => None
                  end
              | _ => None
              end
            else
              match unescape e, parseChars r1 with
              | Some u, Some (str, rest) => Some (u :: str, rest)
              | _, _ => None
              end
        end
      else if c <? 32 then None
      else
        match parseChars r with
        | Some (str, rest) => Some (c :: str, rest)
        | None => None
        end
  end.

Fixpoint takeDigits (s : jsstring) : jsstring * jsstring :=
  match s with
  | c :: r =>
      if isDigit c then let '(ds, rest) := takeDigits r in (c :: ds, rest)
      else ([], s)
  | [] => ([], [])
  end.

(** One or more digits. *)
Definition digits1 (s : jsstring) : option (jsstring * jsstring) :=
  match takeDigits s with
  | ([], _) => None
  | (ds, rest) => Some (ds, rest)
  end.

Definition parseInt (s : jsstring) : option (jsstring * jsstring) :=
  match s with
  | c :: r =>
      if c =? 48 then Some ([48], r)
      else if isDigit c then let '(ds, rest) := takeDigits r in Some (c :: ds, rest)
      else None
  | [] => None
  end.

Definition parseFrac (s : jsstring) : option (jsstring * jsstring) :=
  match s with
  | c :: r =>
      if c =? 46 then
        match digits1 r with
        | Some (ds, rest) => Some (46 :: ds, rest)
        | None => None
        end
      else Some ([], s)
  | [] => Some ([], [])
  end.

Definition parseExp (s : jsstring) : option (jsstring * jsstring) :=
  match s with
  | c :: r =>
      if (c =? 101) || (c =? 69) then
        let '(sign, r1) :=
          match r with
          | d :: r' => if (d =? 43) || (d =? 45) then ([d], r') else ([], r)
          | [] => ([], r)
          end in
        match digits1 r1 with
        | Some (ds, rest) => Some (c :: sign ++ ds, rest)
        | None => None
        end
      else Some ([], s)
  | [] => Some ([], [])
  end.

Definition parseNumber (s : jsstring) : option (jsstring * jsstring) :=
  let '(sign, s1) :=
    match s with
    | c :: r => if c =? 45 then ([45], r) else ([], s)
    | [] => ([], s)
    end in
  match parseInt s1 with
  | Some (i, s2) =>
      match parseFrac s2 with
      | Some (f, s3) =>
          match parseExp s3 with
          | Some (e, s4) => Some (sign ++ i ++ f ++ e, s4)
          | None => None
          end
      | None => None
      end
  | None => None
  end.

(** [s] without the prefix [p], when it starts with it. *)
Fixpoint stripPrefix (p s : jsstring) : option jsstring :=
  match p, s with
  | [], _ => Some s
  | a :: p', b :: s' => if a =? b then stripPrefix p' s' else None
  | _ :: _, [] => None
  end.

(** Recursive descent, bounded by [fuel]; every nested call is made on
    a shorter input, except the call for an array's element, which is
    made on the same input once. *)
Fixpoint parseValue (fuel : nat) (s : jsstring) : option (JSON * jsstring) :=
  match fuel with
  | O => None
  | S fuel' =>
      match skipWs s with
      | [] => None
      | c :: r =>
          if c =? 123 then
            match skipWs r with
            | 125 :: r' => Some (JObject [], r')
            | r' => parseMembers fuel' r' []
            end
          else if c =? 91 then
            match skipWs r with
            | 93 :: r' => Some (JArray [], r')
            | r' => parseElements fuel' r' []
            end
          else if c =? 34 then
            match parseChars r with
            | Some (str, rest) => Some (JString str, rest)
            | None => None
            end
          else if c =? 116 then
            match stripPrefix (js "rue") r with
            | Some rest => Some (JBool true, rest)
            | None => None
            end
          else if c =? 102 then
            match stripPrefix (js "alse") r with
            | Some rest => Some (JBool false, rest)
            | None => None
            end
          else if c =? 110 then
            match stripPrefix (js "ull") r with
            | Some rest => Some (JNull, rest)
            | None => None
            end
          else
            match parseNumber (c :: r) with
            | Some (lexeme, rest) => Some (JNumber lexeme, rest)
            | None => None
            end
      end
  end
with parseElements (fuel : nat) (s : jsstring) (acc : list JSON)
  : option (JSON * jsstring) :=
  match fuel with
  | O => None
  | S fuel' =>
      match parseValue fuel' s with
      | Some (v, rest) =>
          match skipWs rest with
          | c :: r =>
              if c =? 44 then parseElements fuel' r (acc ++ [v])
              else if c =? 93 then Some (JArray (acc ++ [v]), r)
              else None
          | [] => None
          end
      | None => None
      end
  end
with parseMembers (fuel : nat) (s : jsstring) (acc : list (jsstring * JSON))
  : option (JSON * jsstring) :=
  match fuel with
  | O => None
  | S fuel' =>
      match skipWs s with
      | 34 :: r =>
          match parseChars r with
          | Some (k, rest) =>
              match skipWs rest with
              | 58 :: r1 =>
                  match parseValue fuel' r1 with
                  | Some (v, rest1) =>
                      match skipWs rest1 with
                      | c :: r2 =>
                          if c =? 44 then parseMembers fuel' r2 (setProp k v acc)
                          else if c =? 125 then Some (JObject (setProp k v acc), r2)
                          else None
                      | [] => None
                      end
                  | None => None
                  end
              | _ => None
              end
          | None => None
          end
      | _ => None
      end
  end.

(** [JSON.parse(text)]: [None] stands for the [SyntaxError] it throws. *)
Definition parse (text : jsstring) : option JSON :=
  match parseValue (2 * length text + 2) text with
  | Some (v, rest) =>
      match skipWs rest with
      | [] => Some v
      | _ :: _ => None
      end
  | None => None
  end.

End JSONText.

Local Close Scope N_scope.

(** ** Errors and promises *)

(** An [Error] object, as built by [new Error(message)]. *)
Record Error : Type := mkError { message : jsstring }.

(** What evaluating an expression that may throw gives. *)
Inductive Completion (A : Type) : Type :=
| Normal (v : A)
| Throw (e : Error).
Arguments Normal {A} v.
Arguments Throw {A} e.

(** The fate of a promise: it is fulfilled, it is rejected, or it never
    settles. *)
Inductive Promise (A : Type) : Type :=
| Pending
| Fulfilled (v : A)
| Rejected (e : Error).
Arguments Pending {A}.
Arguments Fulfilled {A} v.
Arguments Rejected {A} e.

(** [await p] followed by the rest of an async function. *)
#[global] Instance Promise_ret : MRet Promise := fun A v => Fulfilled v.
#[global] Instance Promise_bind : MBind Promise := fun A B k p =>
  match p with
  | Fulfilled v => k v
  | Rejected e => Rejected e
  | Pending => Pending
  end.

(** A [throw] statement inside an async function. *)
Definition throw {A} (e : Error) : Promise A := Rejected e.

(** A call that may throw, made inside an async function. *)
Definition lift {A} (c : Completion A) : Promise A :=
  match c with
  | Normal v => Fulfilled v
  | Throw e => Rejected e
  end.

(** [try { body } catch (error) { handler }] around an async body. *)
Definition try_catch {A} (body : Promise A) (handler : Error -> Promise A)
  : Promise A :=
  match body with
  | Rejected e => handler e
  | _ => body
  end.

(** [Promise.all]: the array [values] has one slot per input promise,
    the slot of promise [i] is written when promise [i] is fulfilled, and
    the result is fulfilled once no slot is empty; the first rejection to
    arrive rejects the result.  [order] lists the promises in the order
    in which they settle. *)
Fixpoint settle_all {A} (promises : list (Promise A))
    (values : list (option A)) (order : list nat) : Promise (list A) :=
  match mapM id values with
  | Some vs => Fulfilled vs
  | None =>
      match order with
      | [] => Pending
      | i :: rest =>
          match promises !! i with
          | Some (Fulfilled v) => settle_all promises (<[i := Some v]> values) rest
          | Some (Rejected e) => Rejected e
          | Some Pending | None => settle_all promises values rest
          end
      end
  end.

Definition Promise_all {A} (promises : list (Promise A)) (order : list nat)
  : Promise (list A) :=
  settle_all promises (replicate (length promises) None) order.

(** ** src/types.ts *)

Record SearchResult : Type := { source : jsstring; content : jsstring }.

Module Step.
Inductive AgentStep : Type :=
| idle | planning | searching | mapping | writing | complete | error.
End Step.
Abbreviation AgentStep := Step.AgentStep.

#[global] Instance AgentStep_eq_dec : EqDecision AgentStep.
Proof. solve_decision. Defined.

(** The interface [ResearchReport] is erased at run time: the value held
    as a report is what [JSON.parse] returned.  [hasRequiredFields] and
    [isResearchReport] say when such a value has the four properties, and
    when they have the declared types. *)
Definition requiredFields : list jsstring :=
  [js "title"; js "summary"; js "key_points"; js "verdict"].

Definition hasRequiredFields (v : JSON) : bool :=
  forallb (fun k => bool_decide (is_Some (field k v))) requiredFields.

Definition isJString (v : JSON) : bool :=
  match v with JString _ => true | _ => false end.

Definition isResearchReport (v : JSON) : bool :=
  match field (js "title") v, field (js "summary") v,
        field (js "key_points") v, field (js "verdict") v with
  | Some (JString _), Some (JString _), Some (JArray items), Some (JString _) =>
      forallb isJString items
  | _, _, _, _ => false
  end.

(** ** src/services/geminiService.ts *)

Definition MODEL_NAME : jsstring := js "gemini-flash-lite-latest".

(** The [responseSchema] of a structured-output request. *)
Inductive Schema : Type :=
| SchemaString (description : option jsstring)
| SchemaArray (items : Schema) (description : option jsstring)
| SchemaObject (properties : list (jsstring * Schema)) (required : list jsstring).

Record GenerationConfig : Type :=
  { responseMimeType : jsstring; responseSchema : Schema }.

Record GenerateContentParameters : Type :=
  { model : jsstring; contents : jsstring; config : option GenerationConfig }.

(** A response of the service; [text] is [undefined] when the response
    carries no text. *)
Record GenerateContentResponse : Type := { text : option jsstring }.

(** The client object [new GoogleGenAI({ apiKey: key })]. *)
Record GoogleGenAI : Type := { client_apiKey : jsstring }.

(** The places of the program that call the service; the call for the
    document at index [i] of [mapContent] is [MapCall i]. *)
Inductive CallSite : Type :=
| PlanCall
| MapCall (i : nat)
| WriteCall.

(** What the program does not determine: the environment variable
    [process.env.API_KEY], the behaviour of the generation service at
    each call ([ai.models.generateContent]), and the order in which the
    concurrent calls of [mapContent] settle. *)
Record Runtime : Type :=
  { env_API_KEY : option jsstring;
    generateContent :
      CallSite -> GoogleGenAI -> GenerateContentParameters ->
      Promise GenerateContentResponse;
    settleOrder : list nat }.

(** [t || d] where [t] may be [undefined]. *)
Definition text_or (t : option jsstring) (d : jsstring) : jsstring :=
  match t with
  | Some s => or_else s d
  | None => d
  end.

Definition getClient (rt : Runtime) (apiKey : option jsstring)
  : Completion GoogleGenAI :=
  match or_undef apiKey (env_API_KEY rt) with
  | Some key =>
      if truthy key then Normal {| client_apiKey := key |}
      else Throw (mkError (js "API Key is missing. Please provide it in the input field."))
  | None =>
      Throw (mkError (js "API Key is missing. Please provide it in the input field."))
  end.

(** *** 1. The Planner *)

Definition planPrompt (userQuery : jsstring) : jsstring :=
    js "You are a Research Lead. The user wants to know about: "
    ++ dquote
    ++ userQuery
    ++ dquote
    ++ js "."
    ++ newline
    ++ js "      "
    ++ newline
    ++ js "      Define a specific angle for this research."
    ++ newline
    ++ js "      Return ONLY the refined topic string. Do not add quotes or markdown."
    ++ newline
    ++ js "      "
    ++ newline
    ++ js "      Example Input: "
    ++ dquote
    ++ js "Cars"
    ++ dquote
    ++ newline
    ++ js "      Example Output: The transition from combustion engines to electric vehicles in 2025".

Definition planRequest (userQuery : jsstring) : GenerateContentParameters :=
  {| model := MODEL_NAME; contents := planPrompt userQuery; config := None |}.

Definition PlanningError : Error :=
  mkError (js "Could not plan the research topic. Check your API Key.").

Definition planTopic (rt : Runtime) (userQuery : jsstring)
    (apiKey : option jsstring) : Promise jsstring :=
  try_catch
    (ai ← lift (getClient rt apiKey);
     response ← generateContent rt PlanCall ai (planRequest userQuery);
     mret (text_or (trim <$> text response) userQuery))
    (fun _ => throw PlanningError).

(** *** 2. The Search (mock) *)

Definition fetchMockSearch (refinedTopic : jsstring)
  : Promise (list SearchResult) :=
  mret
    [ {| source := js "Academic Paper";
         content := js "Recent studies show " ++ refinedTopic
                    ++ js " is accelerating due to GPU costs dropping by 40%." |};
      {| source := js "Tech Blog";
         content := js "Developers are complaining that " ++ refinedTopic
                    ++ js " is hard to debug, leading to a 20% slowdown in production." |};
      {| source := js "Market Report";
         content := js "Investors have poured $5B into " ++ refinedTopic
                    ++ js " related startups in Q4 2024." |} ].

(** *** 3. The Mapper *)

Definition mapPrompt (doc : SearchResult) : jsstring :=
  js "Extract key facts from: " ++ source doc ++ js ": " ++ content doc.

Definition mapRequest (doc : SearchResult) : GenerateContentParameters :=
  {| model := MODEL_NAME; contents := mapPrompt doc; config := None |}.

Definition MappingError : Error :=
  mkError (js "Could not extract facts from sources.").

(** The async callback of [documents.map]. *)
Definition extractFacts (rt : Runtime) (ai : GoogleGenAI) (i : nat)
    (doc : SearchResult) : Promise jsstring :=
  response ← generateContent rt (MapCall i) ai (mapRequest doc);
  mret (text_or (text response) []).

Definition mapContent (rt : Runtime) (documents : list SearchResult)
    (apiKey : option jsstring) : Promise jsstring :=
  try_catch
    (ai ← lift (getClient rt apiKey);
     let promises := imap (extractFacts rt ai) documents in
     results ← Promise_all promises (settleOrder rt);
     mret (join newline results))
    (fun _ => throw MappingError).

(** *** 4. The Writer *)

Definition writePrompt (rawNotes : jsstring) : jsstring :=
    js "You are a Technical Writer."
    ++ newline
    ++ js "      Synthesize the following raw notes into a structured report."
    ++ newline
    ++ js "      "
    ++ newline
    ++ js "      RAW NOTES:"
    ++ newline
    ++ js "      "
    ++ rawNotes
    ++ newline
    ++ js "      ".

Definition reportSchema : Schema :=
  SchemaObject
    [ (js "title", SchemaString (Some (js "The title of the research report")));
      (js "summary", SchemaString (Some (js "A brief summary")));
      (js "key_points",
        SchemaArray (SchemaString None) (Some (js "List of 2-5 key bullet points")));
      (js "verdict", SchemaString (Some (js "A Final analysis or Conclusion"))) ]
    [js "title"; js "summary"; js "key_points"; js "verdict"].

Definition writeRequest (rawNotes : jsstring) : GenerateContentParameters :=
  {| model := MODEL_NAME; contents := writePrompt rawNotes;
     config := Some {| responseMimeType := js "application/json";
                       responseSchema := reportSchema |} |}.

(** The exception of [JSON.parse]; its message depends on the engine and
    is never read. *)
Definition SyntaxError : Error := mkError (js "SyntaxError").

Definition WritingError : Error :=
  mkError (js "Could not write the final report.").

Definition writeReport (rt : Runtime) (rawNotes : jsstring)
    (apiKey : option jsstring) : Promise JSON :=
  try_catch
    (ai ← lift (getClient rt apiKey);
     response ← generateContent rt WriteCall ai (writeRequest rawNotes);
     match text response with
     | Some t =>
         if truthy t then
           match JSONText.parse t with
           | Some v => mret v
           | None => throw SyntaxError
           end
         else throw (mkError (js "No response generated"))
     | None => throw (mkError (js "No response generated"))
     end)
    (fun _ => throw WritingError).

(** ** src/App.tsx: the state of the component and its handlers *)

Record AppState : Type :=
  { apiKey : jsstring;
    query : jsstring;
    step : AgentStep;
    refinedTopic : jsstring;
    report : JSON;
    error : option jsstring }.

(** The initial values given to [useState]. *)
Definition initialState : AppState :=
  {| apiKey := []; query := []; step := Step.idle; refinedTopic := [];
     report := null; error := None |}.

Definition setApiKey (v : jsstring) (st : AppState) : AppState :=
  {| apiKey := v; query := query st; step := step st;
     refinedTopic := refinedTopic st; report := report st; error := error st |}.

Definition setQuery (v : jsstring) (st : AppState) : AppState :=
  {| apiKey := apiKey st; query := v; step := step st;
     refinedTopic := refinedTopic st; report := report st; error := error st |}.

Definition setStep (v : AgentStep) (st : AppState) : AppState :=
  {| apiKey := apiKey st; query := query st; step := v;
     refinedTopic := refinedTopic st; report := report st; error := error st |}.

Definition setRefinedTopic (v : jsstring) (st : AppState) : AppState :=
  {| apiKey := apiKey st; query := query st; step := step st;
     refinedTopic := v; report := report st; error := error st |}.

Definition setReport (v : JSON) (st : AppState) : AppState :=
  {| apiKey := apiKey st; query := query st; step := step st;
     refinedTopic := refinedTopic st; report := v; error := error st |}.

Definition setError (v : option jsstring) (st : AppState) : AppState :=
  {| apiKey := apiKey st; query := query st; step := step st;
     refinedTopic := refinedTopic st; report := report st; error := v |}.

(** The four stages a run calls, in the order of the pipeline. *)
Inductive Stage : Type := Planner | Retrieval | Extractor | Synthesizer.

(** The component while a handler runs: its present state, the states it
    went through (one per state-setter call, in program order) and the
    stages that were called (in call order). *)
Record Run : Type :=
  { current : AppState;
    history : list AppState;
    invoked : list Stage }.

Definition start (st : AppState) : Run :=
  {| current := st; history := []; invoked := [] |}.

(** How a handler ends: it returns, it throws, or it waits for ever on a
    promise that never settles. *)
Inductive Outcome (A : Type) : Type :=
| Done (v : A)
| Threw (e : Error)
| Stuck.
Arguments Done {A} v.
Arguments Threw {A} e.
Arguments Stuck {A}.

(** A handler: a computation over the component. *)
Definition Async (A : Type) : Type := Run -> Outcome A * Run.

#[global] Instance Async_ret : MRet Async := fun A v r => (Done v, r).
#[global] Instance Async_bind : MBind Async := fun A B k m r =>
  match m r with
  | (Done v, r') => k v r'
  | (Threw e, r') => (Threw e, r')
  | (Stuck, r') => (Stuck, r')
  end.

(** A handler that returns at once. *)
Definition skip : Async unit := mret ().

(** A call of a state setter. *)
Definition set (f : AppState -> AppState) : Async unit := fun r =>
  (Done (),
   {| current := f (current r);
      history := history r ++ [f (current r)];
      invoked := invoked r |}).

(** [await] on the promise a stage returned. *)
Definition await {A} (stage : Stage) (p : Promise A) : Async A := fun r =>
  (match p with
   | Fulfilled v => Done v
   | Rejected e => Threw e
   | Pending => Stuck
   end,
   {| current := current r; history := history r;
      invoked := invoked r ++ [stage] |}).

(** [try { body } catch (err) { handler }] *)
Definition try_ {A} (body : Async A) (handler : Error -> Async A) : Async A :=
  fun r =>
    match body r with
    | (Threw e, r') => handler e r'
    | res => res
    end.

Definition unexpectedError : jsstring :=
  js "An unexpected error occurred during the research process.".

(** The [catch] block of [handleResearch]. *)
Definition onFailure (err : Error) : Async unit :=
  set (setError (Some (or_else (message err) unexpectedError)));;
  set (setStep Step.error).

(** [handleResearch]: [query] and [apiKey] are the values the closure
    captured, those of the state in which the handler is called. *)
Definition handleResearch (rt : Runtime) : Async unit := fun r =>
  let query := query (current r) in
  let apiKey := apiKey (current r) in
  (if blank query then skip
   else
     set (setStep Step.planning);;
     set (setError None);;
     set (setReport null);;
     set (setRefinedTopic []);;
     try_
       (plannedTopic ← await Planner (planTopic rt query (Some apiKey));
        set (setRefinedTopic plannedTopic);;
        set (setStep Step.searching);;
        docs ← await Retrieval (fetchMockSearch plannedTopic);
        set (setStep Step.mapping);;
        notes ← await Extractor (mapContent rt docs (Some apiKey));
        set (setStep Step.writing);;
        finalReport ← await Synthesizer (writeReport rt notes (Some apiKey));
        set (setReport finalReport);;
        set (setStep Step.complete))
       onFailure) r.

(** The [disabled] attribute of the query input and of the Initiate
    button. *)
Definition runDisabled (s : AgentStep) : bool :=
  bool_decide (s <> Step.idle) && bool_decide (s <> Step.complete)
  && bool_decide (s <> Step.error).

(** A click on the Initiate button; a disabled button receives none. *)
Definition onClickInitiate (rt : Runtime) : Async unit := fun r =>
  if runDisabled (step (current r)) then skip r else handleResearch rt r.

(** A key pressed in the query input; a disabled input receives none. *)
Definition onKeyDownQuery (rt : Runtime) (key : jsstring) : Async unit := fun r =>
  if runDisabled (step (current r)) then skip r
  else if bool_decide (key = js "Enter") then handleResearch rt r
  else skip r.

(** The Reset System button of the error panel. *)
Definition onClickResetSystem : Async unit :=
  set (setStep Step.idle).

(** A value React can draw as a child: text for a string or a number,
    nothing for a boolean or [null], the elements of an array in turn.
    An object is refused: the render throws. *)
Fixpoint validChild (v : JSON) : bool :=
  match v with
  | JObject _ => false
  | JArray items => forallb validChild items
  | _ => true
  end.

(** [{report.k}]: an absent property draws nothing. *)
Definition validField (k : jsstring) (props : list (jsstring * JSON)) : bool :=
  match getProp k props with
  | Some c => validChild c
  | None => true
  end.

(** The report section [step === 'complete' && report && ...] can be
    drawn for this report.  The report has to be an object: every other
    value is either falsy, and the section is left out, or has no
    [key_points], and [report.key_points.map] throws.  Its [key_points]
    has to be an array, the only value with a [map], of values that can
    be drawn, and its [title], [summary] and [verdict], where present,
    have to be values that can be drawn. *)
Definition rendersReport (v : JSON) : bool :=
  match v with
  | JObject props =>
      validField (js "title") props
      && validField (js "summary") props
      && validField (js "verdict") props
      && match getProp (js "key_points") props with
         | Some (JArray items) => forallb validChild items
         | _ => false
         end
  | _ => false
  end.

(** The report section, which holds the Conduct New Research button, is
    on the page. *)
Definition showsReport (st : AppState) : bool :=
  bool_decide (step st = Step.complete) && rendersReport (report st).

(** The Conduct New Research button below a finished report; there is
    no click when the report section is not on the page. *)
Definition onClickConductNewResearch : Async unit := fun r =>
  if showsReport (current r)
  then (set (setStep Step.idle);;
        set (setQuery []);;
        set (setReport null);;
        set (setRefinedTopic [])) r
  else skip r.

(** The state a handler leaves the component in. *)
Definition after {A} (h : Async A) (st : AppState) : AppState :=
  current (h (start st)).2.

(** ** Scripted runtimes

    Concrete behaviours of the service, used to run the program on
    examples. *)

Definition respond (t : jsstring) : Promise GenerateContentResponse :=
  Fulfilled {| text := Some t |}.

Definition transportFailure : Promise GenerateContentResponse :=
  Rejected (mkError (js "fetch failed")).

Definition scripted (env : option jsstring)
    (plan : Promise GenerateContentResponse)
    (extract : nat -> Promise GenerateContentResponse)
    (write : Promise GenerateContentResponse)
    (order : list nat) : Runtime :=
  {| env_API_KEY := env;
     generateContent := fun site _ _ =>
       match site with
       | PlanCall => plan
       | MapCall i => extract i
       | WriteCall => write
       end;
     settleOrder := order |}.

Definition facts (i : nat) : Promise GenerateContentResponse :=
  match i with
  | 0 => respond (js "GPU costs fell 40%.")
  | 1 => respond (js "Debugging is hard.")
  | _ => respond (js "$5B invested.")
  end.

Definition fullReportText : jsstring :=
  jsq "{'title':'The EV Shift','summary':'S','key_points':['a','b','c'],'verdict':'Accelerating'}".

Definition noVerdictText : jsstring :=
  jsq "{'title':'The EV Shift','summary':'S','key_points':['a','b','c']}".

Definition noVerdictReport : JSON :=
  JObject [ (js "title", JString (js "The EV Shift"));
            (js "summary", JString (js "S"));
            (js "key_points", JArray [JString (js "a"); JString (js "b"); JString (js "c")]) ].

(** The service answers every call; the last extraction call settles
    first. *)
Definition rt_ok : Runtime :=
  scripted None (respond (js " EV transition in 2025 ")) facts
    (respond fullReportText) [2; 1; 0].

(** As [rt_ok], but the report comes back without its [verdict]. *)
Definition rt_noVerdict : Runtime :=
  scripted None (respond (js "EV transition in 2025")) facts
    (respond noVerdictText) [0; 1; 2].

(** No credential anywhere: the service is never reached. *)
Definition rt_noKey : Runtime :=
  scripted None transportFailure (fun _ => transportFailure) transportFailure [].

Definition st_cars : AppState :=
  {| apiKey := js "k-123"; query := js "Cars"; step := Step.idle;
     refinedTopic := []; report := null; error := None |}.

(** The second extraction call fails, the others succeed. *)
Definition rt_mapFails : Runtime :=
  scripted None (respond (js "EV transition in 2025"))
    (fun i => match i with 1 => transportFailure | _ => facts i end)
    (respond fullReportText) [0; 1; 2].

(** The writing call fails in transit. *)
Definition rt_writeTransport : Runtime :=
  scripted None (respond (js "EV transition in 2025")) facts
    transportFailure [0; 1; 2].

(** The writing call answers with text that is not JSON. *)
Definition rt_writeGarbage : Runtime :=
  scripted None (respond (js "EV transition in 2025")) facts
    (respond (js "Sorry, I cannot help.")) [0; 1; 2].

(** The Planner answers with blanks only. *)
Definition rt_blankPlan : Runtime :=
  scripted None (respond (js "   ")) facts (respond fullReportText) [1; 0; 2].

(** A run in progress, in its extraction stage. *)
Definition st_busy : AppState :=
  {| apiKey := js "k-123"; query := js "Cars"; step := Step.mapping;
     refinedTopic := js "EV transition in 2025"; report := null; error := None |}.

(** The state the failed run of [rt_mapFails] ends in. *)
Definition st_failed : AppState := after (handleResearch rt_mapFails) st_cars.

(** A query made of blanks only: two spaces, a tab, a no-break space. *)
Definition st_blank : AppState :=
  {| apiKey := js "k-123"; query := [32; 32; 9; 160]%N; step := Step.idle;
     refinedTopic := []; report := null; error := None |}.

(** ** src/App.tsx: what the component renders

    The parts of the render function that depend on the state: the
    change handlers of the two inputs, the sections shown, and the four
    status cards. *)

(** The API key input exists only in the [idle] step. *)
Definition showsApiKeyInput (st : AppState) : bool :=
  bool_decide (step st = Step.idle).

(** The status section. *)
Definition showsStatus (st : AppState) : bool :=
  bool_decide (step st <> Step.idle).

(** The banner of the refined topic: [refinedTopic && ...]. *)
Definition showsTopicBanner (st : AppState) : bool :=
  truthy (refinedTopic st).

(** The error panel, which holds the Reset System button: [error && ...]. *)
Definition showsErrorPanel (st : AppState) : bool :=
  match error st with
  | Some m => truthy m
  | None => false
  end.

(** Typing in the API key input; the input receives nothing when it is
    not rendered. *)
Definition onChangeApiKey (v : jsstring) : Async unit := fun r =>
  if showsApiKeyInput (current r) then set (setApiKey v) r else skip r.

(** Typing in the query input; a disabled input receives nothing. *)
Definition onChangeQuery (v : jsstring) : Async unit := fun r =>
  if runDisabled (step (current r)) then skip r else set (setQuery v) r.

Inductive Icon : Type :=
| IconZap | IconSearch | IconBookOpen | IconPenTool | IconCheckCircle2.

Record StatusCardProps : Type :=
  { isActive : bool;
    isDone : bool;
    icon : Icon;
    label : jsstring;
    subtext : jsstring }.

(** The four status cards, in the order they are rendered. *)
Definition statusCards (s : AgentStep) : list StatusCardProps :=
  [ {| isActive := bool_decide (s = Step.planning);
       isDone := bool_decide
         (s ∈ [Step.searching; Step.mapping; Step.writing; Step.complete]);
       icon := IconZap; label := js "Planning"; subtext := js "Defining Scope" |};
    {| isActive := bool_decide (s = Step.searching);
       isDone := bool_decide (s ∈ [Step.mapping; Step.writing; Step.complete]);
       icon := IconSearch; label := js "Retrieval"; subtext := js "Sourcing Data" |};
    {| isActive := bool_decide (s = Step.mapping);
       isDone := bool_decide (s ∈ [Step.writing; Step.complete]);
       icon := IconBookOpen; label := js "Analysis"; subtext := js "Extracting Facts" |};
    {| isActive := bool_decide (s = Step.writing);
       isDone := bool_decide (s = Step.complete);
       icon := IconPenTool; label := js "Synthesis"; subtext := js "Drafting Report" |} ].

(** [StatusCard]: the class of the container and the icon drawn. *)
Definition containerClass (p : StatusCardProps) : jsstring :=
  if isActive p then js "bg-stone-800 border-stone-800 text-white shadow-lg scale-105"
  else if isDone p then js "bg-[#e8e6df] border-stone-400 text-stone-700"
  else js "bg-[#fdfbf7] border-stone-300 text-stone-400".

Definition shownIcon (p : StatusCardProps) : Icon :=
  if isDone p then IconCheckCircle2 else icon p.

(** ** The JSON text of a report

    The text a service that follows [reportSchema] answers with: an
    object with the four properties in the order of the schema, written
    without insignificant white space, its strings quoted with the
    quotation mark, the reverse solidus and the control characters
    escaped. *)

Definition hexChar (d : N) : N :=
  (if d <? 10 then 48 + d else 87 + d)%N.

Definition escapeChar (c : N) : jsstring :=
  if (c =? 34)%N then [92; 34]%N
  else if (c =? 92)%N then [92; 92]%N
  else if (c <? 32)%N then [92; 117; 48; 48; hexChar (c / 16); hexChar (c mod 16)]%N
  else [c].

Fixpoint escape (s : jsstring) : jsstring :=
  match s with
  | [] => []
  | c :: r => escapeChar c ++ escape r
  end.

Definition quote (s : jsstring) : jsstring := dquote ++ escape s ++ dquote.

Fixpoint quoteList (l : list jsstring) : jsstring :=
  match l with
  | [] => []
  | [s] => quote s
  | s :: r => quote s ++ js "," ++ quoteList r
  end.

Definition reportText (title summary : jsstring) (key_points : list jsstring)
    (verdict : jsstring) : jsstring :=
  jsq "{'title':" ++ quote title
  ++ jsq ",'summary':" ++ quote summary
  ++ jsq ",'key_points':[" ++ quoteList key_points
  ++ jsq "],'verdict':" ++ quote verdict ++ js "}".

(** The value of that report. *)
Definition reportValue (title summary : jsstring) (key_points : list jsstring)
    (verdict : jsstring) : JSON :=
  JObject [ (js "title", JString title);
            (js "summary", JString summary);
            (js "key_points", JArray (JString <$> key_points));
            (js "verdict", JString verdict) ].

(** A state in which nothing but the query and the key is set. *)
Definition fresh (q k : jsstring) : AppState :=
  setQuery q (setApiKey k initialState).

(** The service never answers the third extraction call. *)
Definition rt_mapHangs : Runtime :=
  scripted None (respond (js "EV transition in 2025"))
    (fun i => match i with 2 => Pending | _ => facts i end)
    (respond fullReportText) [0; 1; 2].

(** The report comes back inside a Markdown code fence. *)
Definition rt_fenced : Runtime :=
  scripted None (respond (js "EV transition in 2025")) facts
    (respond (js "```json" ++ newline ++ fullReportText ++ newline ++ js "```"))
    [0; 1; 2].

(** An environment key and a service that answers when asked. *)
Definition rt_envKey : Runtime :=
  scripted (Some (js "env-key")) (respond (js "EV transition in 2025")) facts
    (respond fullReportText) [0; 1; 2].

(** A string that does not begin with white space. *)
Definition cleanStart (s : jsstring) : Prop :=
  forall c r, s = c :: r -> isWhiteSpace c = false.

(** The invariant of [Promise.all] while it waits: [values] has one slot
    per promise, and a slot is filled only with the value its promise was
    fulfilled with. *)
Definition consistent {A} (promises : list (Promise A))
    (values : list (option A)) : Prop :=
  length values = length promises /\
  forall j x, values !! j = Some (Some x) -> promises !! j = Some (Fulfilled x).

(** * Properties *)

(** ** Strings *)

Lemma trimStart_nil_iff (s : jsstring) :
  trimStart s = [] <-> forallb isWhiteSpace s = true.
Proof.
  induction s as [|c r IH]; simpl; [done|].
  destruct (isWhiteSpace c); simpl; [exact IH|].
  split; discriminate.
Qed.

Lemma trimStart_head (s : jsstring) c r :
  trimStart s = c :: r -> isWhiteSpace c = false.
Proof.
  induction s as [|d t IH]; simpl; [discriminate|].
  destruct (isWhiteSpace d) eqn:Hd; [exact IH|].
  intros [= -> _]. exact Hd.
Qed.

Lemma forallb_reverse (f : N -> bool) (s : jsstring) :
  forallb f (reverse s) = forallb f s.
Proof.
  induction s as [|c r IH]; [done|].
  rewrite reverse_cons, forallb_app, IH. simpl.
  rewrite andb_true_r. apply andb_comm.
Qed.

(** A query is refused exactly when all its code units are white space. *)
Lemma blank_spec (s : jsstring) : blank s = forallb isWhiteSpace s.
Proof.
  unfold blank, trim, trimEnd.
  destruct (trimStart s) as [|c r] eqn:E.
  - apply trimStart_nil_iff in E. by rewrite E.
  - assert (Hs : forallb isWhiteSpace s = false).
    { destruct (forallb isWhiteSpace s) eqn:F; [|done].
      apply trimStart_nil_iff in F. congruence. }
    rewrite Hs.
    assert (Hc : forallb isWhiteSpace (reverse (c :: r)) = false).
    { rewrite forallb_reverse. simpl.
      by rewrite (trimStart_head _ _ _ E). }
    destruct (trimStart (reverse (c :: r))) as [|d t] eqn:E2.
    + apply trimStart_nil_iff in E2. congruence.
    + rewrite reverse_cons. by destruct (reverse t).
Qed.

Lemma trimStart_clean (s : jsstring) : cleanStart (trimStart s).
Proof. intros c r H. by eapply trimStart_head. Qed.

Lemma trimStart_id (s : jsstring) : cleanStart s -> trimStart s = s.
Proof.
  destruct s as [|c r]; [done|]. intros H. simpl.
  by rewrite (H c r eq_refl).
Qed.

(** [trimStart] removes a prefix made of white space. *)
Lemma trimStart_split (s : jsstring) :
  exists ws, s = ws ++ trimStart s /\ forallb isWhiteSpace ws = true.
Proof.
  induction s as [|c r (ws & Hs & Hws)]; [by exists []|]. simpl.
  destruct (isWhiteSpace c) eqn:Hc.
  - exists (c :: ws). simpl. rewrite Hc, Hws. split; [by f_equal|done].
  - by exists [].
Qed.

(** [trimEnd] removes a suffix made of white space. *)
Lemma trimEnd_split (s : jsstring) :
  exists ws, s = trimEnd s ++ ws /\ forallb isWhiteSpace ws = true.
Proof.
  destruct (trimStart_split (reverse s)) as (ws & Hs & Hws).
  exists (reverse ws). split; [|by rewrite forallb_reverse].
  unfold trimEnd. rewrite <- reverse_app, <- Hs. by rewrite reverse_involutive.
Qed.

Lemma trimEnd_cleanStart (s : jsstring) : cleanStart s -> cleanStart (trimEnd s).
Proof.
  intros Hs c r Hc. destruct (trimEnd_split s) as (ws & Heq & _).
  rewrite Hc in Heq. by apply (Hs c (r ++ ws)).
Qed.

Lemma trimEnd_id (s : jsstring) : cleanStart (reverse s) -> trimEnd s = s.
Proof.
  intros H. unfold trimEnd. rewrite trimStart_id by done.
  apply reverse_involutive.
Qed.

Lemma trim_clean (s : jsstring) :
  cleanStart (trim s) /\ cleanStart (reverse (trim s)).
Proof.
  split.
  - apply trimEnd_cleanStart, trimStart_clean.
  - unfold trim, trimEnd. rewrite reverse_involutive. apply trimStart_clean.
Qed.

(** Trimming twice is trimming once. *)
Lemma trim_idempotent (s : jsstring) : trim (trim s) = trim s.
Proof.
  destruct (trim_clean s) as [H1 H2].
  unfold trim at 1. rewrite (trimStart_id _ H1). by apply trimEnd_id.
Qed.

(** ** [Promise.all] *)

Section PromiseAll.
Context {A : Type}.
Implicit Types (promises : list (Promise A)) (values : list (option A)).
Implicit Types (order : list nat) (vs : list A).

Lemma consistent_init promises :
  consistent promises (replicate (length promises) None).
Proof.
  split; [by rewrite length_replicate|].
  intros j x Hj. apply lookup_replicate in Hj as [? _]. done.
Qed.

Lemma consistent_insert promises values i v :
  consistent promises values ->
  promises !! i = Some (Fulfilled v) ->
  consistent promises (<[i := Some v]> values).
Proof.
  intros [Hlen Hval] Hi. split; [by rewrite length_insert|].
  intros j x. destruct (decide (i = j)) as [<-|Hne].
  - rewrite list_lookup_insert_eq.
    + by intros [= <-].
    + rewrite Hlen. by eapply lookup_lt_Some.
  - rewrite list_lookup_insert_ne by done. apply Hval.
Qed.

(** When every slot is filled, the slots hold the promises' values, in
    the order of the promises. *)
Lemma consistent_complete vs values vs' :
  consistent (Fulfilled <$> vs) values ->
  mapM id values = Some vs' ->
  vs' = vs.
Proof.
  intros [Hlen Hval] Hm. apply mapM_Some_1 in Hm.
  rewrite length_fmap in Hlen.
  apply list_eq. intros j.
  destruct (vs' !! j) as [y|] eqn:Hy.
  - destruct (Forall2_lookup_r _ _ _ _ _ Hm Hy) as (x & Hx & Hxy).
    simpl in Hxy. subst x.
    apply Hval in Hx. rewrite list_lookup_fmap in Hx.
    destruct (vs !! j); by simplify_eq/=.
  - symmetry. apply lookup_ge_None. apply lookup_ge_None in Hy.
    apply Forall2_length in Hm. lia.
Qed.

(** Fan-in: once every promise has been fulfilled, the result is the
    list of their values in the order of the promises, whatever the
    order of arrival. *)
Lemma settle_all_fulfilled vs order : forall values,
  consistent (Fulfilled <$> vs) values ->
  (forall i, i < length vs -> values !! i = Some None -> i ∈ order) ->
  settle_all (Fulfilled <$> vs) values order = Fulfilled vs.
Proof.
  induction order as [|i rest IH]; intros values Hc Hcov; simpl;
    destruct (mapM id values) as [vs'|] eqn:Hm;
    try (f_equal; by eapply consistent_complete).
  - apply mapM_None_1, Exists_exists in Hm as (x & Hx & Hnone).
    simpl in Hnone. subst x.
    apply list_elem_of_lookup in Hx as [j Hj].
    destruct Hc as [Hlen _]. rewrite length_fmap in Hlen.
    pose proof (lookup_lt_Some _ _ _ Hj) as Hlt.
    specialize (Hcov j). rewrite Hlen in Hlt.
    specialize (Hcov Hlt Hj). by apply elem_of_nil in Hcov.
  - rewrite list_lookup_fmap.
    destruct (vs !! i) as [v|] eqn:Hv; simpl.
    + apply IH.
      * apply consistent_insert; [done|]. by rewrite list_lookup_fmap, Hv.
      * intros j Hj Hnone.
        destruct (decide (i = j)) as [<-|Hne].
        { rewrite list_lookup_insert_eq in Hnone; [done|].
          destruct Hc as [-> _]. by rewrite length_fmap. }
        rewrite list_lookup_insert_ne in Hnone by done.
        specialize (Hcov j Hj Hnone).
        apply elem_of_cons in Hcov as [->|]; done.
    + apply IH; [done|].
      intros j Hj Hnone. specialize (Hcov j Hj Hnone).
      apply elem_of_cons in Hcov as [->|]; [|done].
      apply lookup_ge_None in Hv. lia.
Qed.

(** No partial success: a rejection that arrives rejects the whole. *)
Lemma settle_all_rejected promises order i e : forall values,
  consistent promises values ->
  i ∈ order ->
  promises !! i = Some (Rejected e) ->
  exists e', settle_all promises values order = Rejected e'.
Proof.
  induction order as [|a rest IH]; intros values Hc Hin Hi;
    [by apply elem_of_nil in Hin|].
  simpl. destruct (mapM id values) as [vs'|] eqn:Hm.
  { exfalso. apply mapM_Some_1 in Hm. destruct Hc as [Hlen Hval].
    pose proof (lookup_lt_Some _ _ _ Hi) as Hlt. rewrite <- Hlen in Hlt.
    apply lookup_lt_is_Some in Hlt as [x Hx].
    destruct (Forall2_lookup_l _ _ _ _ _ Hm Hx) as (y & _ & Hxy).
    simpl in Hxy. subst x. apply Hval in Hx. congruence. }
  destruct (promises !! a) as [[|v|e0]|] eqn:Ha; [| |by eexists|];
    (apply elem_of_cons in Hin as [->|Hin]; [congruence|]).
  - by apply IH.
  - apply IH; [by apply consistent_insert|done..].
  - by apply IH.
Qed.

End PromiseAll.

(** ** The stages *)

Lemma try_catch_rejected {A} (body : Promise A) (err e : Error) :
  try_catch body (fun _ => throw err) = Rejected e -> e = err.
Proof. destruct body; simpl; unfold throw; congruence. Qed.

Lemma planTopic_rejected rt userQuery apiKey e :
  planTopic rt userQuery apiKey = Rejected e -> e = PlanningError.
Proof. apply try_catch_rejected. Qed.

Lemma mapContent_rejected rt documents apiKey e :
  mapContent rt documents apiKey = Rejected e -> e = MappingError.
Proof. apply try_catch_rejected. Qed.

Lemma writeReport_rejected rt rawNotes apiKey e :
  writeReport rt rawNotes apiKey = Rejected e -> e = WritingError.
Proof. apply try_catch_rejected. Qed.

#[local] Arguments planTopic : simpl never.
#[local] Arguments mapContent : simpl never.
#[local] Arguments writeReport : simpl never.
#[local] Arguments blank : simpl never.
#[local] Arguments fetchMockSearch : simpl never.
#[local] Arguments js : simpl never.
#[local] Arguments jsq : simpl never.

(** ** The orchestrator *)

(** The [catch] block, for an error that carries a message. *)
Lemma onFailure_run (e : Error) (r : Run) :
  truthy (message e) = true ->
  onFailure e r =
    (Done (),
     {| current := setStep Step.error (setError (Some (message e)) (current r));
        history := history r
                   ++ [setError (Some (message e)) (current r);
                       setStep Step.error (setError (Some (message e)) (current r))];
        invoked := invoked r |}).
Proof.
  intros He. unfold onFailure, or_else. rewrite He.
  unfold mbind, Async_bind, set. cbn. by rewrite <- app_assoc.
Qed.

(** Case analysis on the fate of the three generation stages of a run
    that passed the entry guard. *)
Ltac run_cases rt st Hb :=
  unfold handleResearch; cbn; rewrite Hb;
  unfold try_, mbind, Async_bind; cbn;
  destruct (planTopic rt (query st) (Some (apiKey st)))
    as [|?topic|?e] eqn:?Hplan; cbn;
  [ | unfold fetchMockSearch; cbn;
      destruct (mapContent rt _ (Some (apiKey st)))
        as [|?notes|?e] eqn:?Hmap; cbn;
      [ | destruct (writeReport rt _ (Some (apiKey st)))
            as [|?rep|?e] eqn:?Hwrite; cbn | ] | ].

(** Replaces the error a stage was rejected with by the stage's own, and
    runs the [catch] block. *)
Ltac stage_failure :=
  repeat match goal with
    | H : planTopic _ _ _ = Rejected ?e |- _ =>
        is_var e; pose proof (planTopic_rejected _ _ _ _ H); subst e
    | H : mapContent _ _ _ = Rejected ?e |- _ =>
        is_var e; pose proof (mapContent_rejected _ _ _ _ H); subst e
    | H : writeReport _ _ _ = Rejected ?e |- _ =>
        is_var e; pose proof (writeReport_rejected _ _ _ _ H); subst e
    end;
  try (rewrite onFailure_run by reflexivity; cbn).

(** C9. For every query that is empty or made only of white space, a run
    request does nothing: the handler returns at once, the state of the
    component (its PipelineState included) is the one it was called in,
    no state setter is called and no stage is invoked.  The same holds
    for both controls that trigger a run. *)
Theorem run_blank_query_noop (rt : Runtime) (st : AppState) :
  forallb isWhiteSpace (query st) = true ->
  handleResearch rt (start st) = (Done (), start st)
  /\ onClickInitiate rt (start st) = (Done (), start st)
  /\ onKeyDownQuery rt (js "Enter") (start st) = (Done (), start st).
Proof.
  intros Hws. rewrite <- blank_spec in Hws.
  assert (H : handleResearch rt (start st) = (Done (), start st)).
  { unfold handleResearch. cbn. by rewrite Hws. }
  split; [exact H|].
  unfold onClickInitiate, onKeyDownQuery. rewrite H.
  split; by destruct (runDisabled _).
Qed.

Lemma run_blank_query_noop_witness :
  forallb isWhiteSpace (query st_blank) = true
  /\ handleResearch rt_ok (start st_blank) = (Done (), start st_blank).
Proof.
  split; [reflexivity|].
  apply (run_blank_query_noop rt_ok st_blank). reflexivity.
Defined.

(** The value the Planner returns for a response of the service. *)
Lemma planned_topic_cases (t : option jsstring) (userQuery : jsstring) :
  text_or (trim <$> t) userQuery =
    match t with
    | Some s => if forallb isWhiteSpace s then userQuery else trim s
    | None => userQuery
    end.
Proof.
  destruct t as [s|]; [|done]. simpl. unfold or_else.
  rewrite <- blank_spec. unfold blank. by destruct (truthy (trim s)).
Qed.

(** C7. When the Planner's call to the generation service succeeds,
    [planTopic] is fulfilled: with the original query, unchanged, if the
    response carries no text or only white space (the empty string
    included), and with the trimmed response otherwise, that is, with
    the response less a prefix and a suffix made of white space, the
    first and the last code unit of what is left being no white space.
    The run then does not fail in planning: it publishes that topic,
    enters [searching] and calls the retrieval stage. *)
Theorem planTopic_fallback (rt : Runtime) (userQuery : jsstring)
    (key : option jsstring) (ai : GoogleGenAI) (response : GenerateContentResponse) :
  getClient rt key = Normal ai ->
  generateContent rt PlanCall ai (planRequest userQuery) = Fulfilled response ->
  let planned :=
    match text response with
    | Some t => if forallb isWhiteSpace t then userQuery else trim t
    | None => userQuery
    end in
  planTopic rt userQuery key = Fulfilled planned
  /\ (forall t, text response = Some t -> forallb isWhiteSpace t = false ->
        exists pre post,
          t = pre ++ planned ++ post
          /\ forallb isWhiteSpace pre = true
          /\ forallb isWhiteSpace post = true
          /\ (forall c, head planned = Some c -> isWhiteSpace c = false)
          /\ (forall c, last planned = Some c -> isWhiteSpace c = false))
  /\ forall st, query st = userQuery -> key = Some (apiKey st) ->
       blank userQuery = false ->
       let r := (handleResearch rt (start st)).2 in
       (exists s, s ∈ history r /\ step s = Step.searching
                  /\ refinedTopic s = planned /\ error s = None)
       /\ Retrieval ∈ invoked r.
Proof.
  intros Hclient Hgen planned.
  assert (Hplan : planTopic rt userQuery key = Fulfilled planned).
  { unfold planTopic. rewrite Hclient. cbn. rewrite Hgen. cbn.
    by rewrite planned_topic_cases. }
  split; [exact Hplan|].
  split.
  { intros t Ht Hws. subst planned. rewrite Ht, Hws.
    destruct (trimStart_split t) as (pre & Hpre & Hprews).
    destruct (trimEnd_split (trimStart t)) as (post & Hpost & Hpostws).
    destruct (trim_clean t) as [H1 H2].
    exists pre, post. split; [|split; [done|split; [done|split]]].
    - rewrite Hpre at 1. f_equal. exact Hpost.
    - intros c Hc. destruct (trim t) as [|d r] eqn:Hr; simplify_eq/=.
      by apply (H1 c r).
    - intros c Hc. rewrite <- head_reverse in Hc.
      destruct (reverse (trim t)) as [|d r] eqn:Hr; simplify_eq/=.
      by apply (H2 c r). }
  intros st <- -> Hb. revert Hplan.
  run_cases rt st Hb; intros [= <-]; stage_failure;
    (split; [eexists; split; [do 5 apply list_elem_of_further; apply list_elem_of_here|done]
            | apply list_elem_of_further, list_elem_of_here]).
Qed.

Lemma planTopic_fallback_witness :
  planTopic rt_blankPlan (js "Cars") (Some (js "k-123")) = Fulfilled (js "Cars")
  /\ planTopic rt_ok (js "Cars") (Some (js "k-123"))
     = Fulfilled (js "EV transition in 2025")
  /\ exists pre post,
       js " EV transition in 2025 " = pre ++ js "EV transition in 2025" ++ post
       /\ forallb isWhiteSpace pre = true
       /\ forallb isWhiteSpace post = true.
Proof.
  split; [|split].
  - exact (proj1 (planTopic_fallback rt_blankPlan (js "Cars") (Some (js "k-123"))
                    {| client_apiKey := js "k-123" |} {| text := Some (js "   ") |}
                    eq_refl eq_refl)).
  - exact (proj1 (planTopic_fallback rt_ok (js "Cars") (Some (js "k-123"))
                    {| client_apiKey := js "k-123" |}
                    {| text := Some (js " EV transition in 2025 ") |}
                    eq_refl eq_refl)).
  - destruct (proj1 (proj2 (planTopic_fallback rt_ok (js "Cars") (Some (js "k-123"))
                    {| client_apiKey := js "k-123" |}
                    {| text := Some (js " EV transition in 2025 ") |}
                    eq_refl eq_refl)) _ eq_refl eq_refl)
      as (pre & post & H & Hpre & Hpost & _).
    exists pre, post. split; [exact H|]. split; [exact Hpre|exact Hpost].
Defined.

(** ** The extraction stage *)

(** The promises of [mapContent] when every call is answered. *)
Lemma extract_promises rt ai documents (T : nat -> option jsstring) :
  (forall i doc, documents !! i = Some doc ->
     generateContent rt (MapCall i) ai (mapRequest doc) = Fulfilled {| text := T i |}) ->
  imap (extractFacts rt ai) documents
  = Fulfilled <$> ((fun i => text_or (T i) []) <$> seq 0 (length documents)).
Proof.
  intros Hgen. apply list_eq. intros i.
  rewrite list_lookup_imap, !list_lookup_fmap.
  destruct (documents !! i) as [doc|] eqn:Hdoc; simpl.
  - rewrite lookup_seq_lt by (by eapply lookup_lt_Some). simpl.
    unfold extractFacts. by rewrite (Hgen _ _ Hdoc).
  - rewrite lookup_seq_ge; [done|]. by apply lookup_ge_None.
Qed.

(** Calls that settle in any order of arrival all settle. *)
Lemma permutation_settles (n : nat) (order : list nat) :
  order ≡ₚ seq 0 n -> forall i, i < n -> i ∈ order.
Proof. intros Hp i Hi. rewrite Hp. apply elem_of_seq. lia. Qed.

(** C5, as the code has it.  Given a credential, if the call for document
    [i] is answered with the text [T i] (an absent or empty text counting
    as the empty string) and every call settles, in whatever order, then
    [mapContent] is fulfilled with [T 0], ..., [T (N-1)] joined by line
    feeds in the order of the documents; for no document at all it is
    fulfilled with the empty string. *)
Theorem mapContent_ordered (rt : Runtime) (documents : list SearchResult)
    (key : option jsstring) (ai : GoogleGenAI) (T : nat -> option jsstring) :
  getClient rt key = Normal ai ->
  (forall i doc, documents !! i = Some doc ->
     generateContent rt (MapCall i) ai (mapRequest doc) = Fulfilled {| text := T i |}) ->
  (forall i, i < length documents -> i ∈ settleOrder rt) ->
  mapContent rt documents key
  = Fulfilled (join newline ((fun i => text_or (T i) []) <$> seq 0 (length documents)))
  /\ (documents = [] -> mapContent rt documents key = Fulfilled []).
Proof.
  intros Hclient Hgen Hcov.
  assert (H : mapContent rt documents key
    = Fulfilled (join newline ((fun i => text_or (T i) []) <$> seq 0 (length documents)))).
  { unfold mapContent. rewrite Hclient. cbn.
    unfold Promise_all. rewrite (extract_promises _ _ _ T Hgen).
    rewrite settle_all_fulfilled; [done|apply consistent_init|].
    intros i Hi _. apply Hcov. by rewrite !length_fmap, length_seq in Hi. }
  split; [exact H|]. intros ->. exact H.
Qed.

Lemma mapContent_ordered_witness :
  mapContent rt_ok (take 2 [ {| source := js "A"; content := js "a" |};
                             {| source := js "B"; content := js "b" |};
                             {| source := js "C"; content := js "c" |} ])
    (Some (js "k-123"))
  = Fulfilled (js "GPU costs fell 40%." ++ newline ++ js "Debugging is hard.").
Proof.
  refine (proj1 (mapContent_ordered rt_ok _ (Some (js "k-123"))
                   {| client_apiKey := js "k-123" |}
                   (fun i => match i with
                             | 0 => Some (js "GPU costs fell 40%.")
                             | 1 => Some (js "Debugging is hard.")
                             | _ => Some (js "$5B invested.")
                             end) _ _ _)).
  - reflexivity.
  - intros [|[|i]] doc Hdoc; reflexivity.
  - intros i Hi. simpl in Hi.
    destruct i as [|[|i]]; [| |lia]; vm_compute; repeat constructor.
Defined.

(** C5, as stated, fails without a credential: the client is built before
    the documents are looked at, so even the empty sequence is rejected. *)
Lemma mapContent_empty_without_credential :
  mapContent rt_noKey [] None = Rejected MappingError
  /\ ~ (forall rt key, mapContent rt [] key = Fulfilled []).
Proof.
  split; [reflexivity|].
  intros H. specialize (H rt_noKey None). discriminate H.
Qed.

(** C6. If the call for one document is rejected and that rejection
    arrives, [mapContent] is rejected with the mapping error, whatever
    the other calls did.  In a run, the state then ends in [error] with
    that message, the writing stage is never called and no report is
    held. *)
Theorem mapContent_all_or_nothing (rt : Runtime) (documents : list SearchResult)
    (key : option jsstring) (ai : GoogleGenAI) (i : nat) (doc : SearchResult)
    (e : Error) :
  getClient rt key = Normal ai ->
  documents !! i = Some doc ->
  generateContent rt (MapCall i) ai (mapRequest doc) = Rejected e ->
  i ∈ settleOrder rt ->
  mapContent rt documents key = Rejected MappingError
  /\ forall st topic,
       blank (query st) = false -> key = Some (apiKey st) ->
       planTopic rt (query st) key = Fulfilled topic ->
       fetchMockSearch topic = Fulfilled documents ->
       let r := (handleResearch rt (start st)).2 in
       step (current r) = Step.error
       /\ error (current r) = Some (message MappingError)
       /\ report (current r) = null
       /\ refinedTopic (current r) = topic
       /\ invoked r = [Planner; Retrieval; Extractor].
Proof.
  intros Hclient Hdoc Hgen Hin.
  assert (H : mapContent rt documents key = Rejected MappingError).
  { unfold mapContent. rewrite Hclient. cbn. unfold Promise_all.
    destruct (settle_all_rejected (imap (extractFacts rt ai) documents)
                (settleOrder rt) i e
                (replicate (length (imap (extractFacts rt ai) documents)) None))
      as [e' ->]; [apply consistent_init|done| |done].
    rewrite list_lookup_imap, Hdoc. simpl.
    unfold extractFacts. by rewrite Hgen. }
  split; [exact H|].
  intros st topic Hb -> Hplan Hdocs.
  unfold handleResearch; cbn; rewrite Hb;
    unfold try_, mbind, Async_bind; cbn.
  rewrite Hplan. cbn. rewrite Hdocs. cbn. rewrite H. cbn.
  by rewrite onFailure_run.
Qed.

Lemma mapContent_all_or_nothing_witness :
  mapContent rt_mapFails
    [ {| source := js "A"; content := js "a" |};
      {| source := js "B"; content := js "b" |};
      {| source := js "C"; content := js "c" |} ] (Some (js "k-123"))
  = Rejected MappingError.
Proof.
  refine (proj1 (mapContent_all_or_nothing rt_mapFails _ (Some (js "k-123"))
                   {| client_apiKey := js "k-123" |} 1
                   {| source := js "B"; content := js "b" |}
                   (mkError (js "fetch failed")) _ _ _ _)).
  - reflexivity.
  - reflexivity.
  - reflexivity.
  - vm_compute. repeat constructor.
Defined.

(** ** The writing stage *)

(** [writeReport], case by case. *)
Lemma writeReport_unfold (rt : Runtime) (rawNotes : jsstring)
    (key : option jsstring) :
  writeReport rt rawNotes key =
    match getClient rt key with
    | Throw _ => Rejected WritingError
    | Normal ai =>
        match generateContent rt WriteCall ai (writeRequest rawNotes) with
        | Pending => Pending
        | Rejected _ => Rejected WritingError
        | Fulfilled response =>
            match text response with
            | Some (c :: t) =>
                match JSONText.parse (c :: t) with
                | Some v => Fulfilled v
                | None => Rejected WritingError
                end
            | _ => Rejected WritingError
            end
        end
    end.
Proof.
  unfold writeReport.
  destruct (getClient rt key) as [ai|e0]; cbn; [|done].
  destruct (generateContent rt WriteCall ai (writeRequest rawNotes))
    as [|[[[|c t]|]]|e0]; cbn; try done.
  by destruct (JSONText.parse (c :: t)).
Qed.

(** The outcomes of [writeReport].  It is fulfilled exactly when a
    client could be built, the call was answered with a non-empty text
    and that text is syntactically valid JSON, and then with the parsed
    value, whichever properties it has; it is rejected, always with the
    writing error, exactly when no client could be built, the call was
    rejected, the response carried no text or an empty one, or the text
    is not valid JSON. *)
Theorem writeReport_outcome (rt : Runtime) (rawNotes : jsstring)
    (key : option jsstring) :
  (forall v, writeReport rt rawNotes key = Fulfilled v <->
     exists ai response t,
       getClient rt key = Normal ai
       /\ generateContent rt WriteCall ai (writeRequest rawNotes) = Fulfilled response
       /\ text response = Some t /\ t <> [] /\ JSONText.parse t = Some v)
  /\ (writeReport rt rawNotes key = Rejected WritingError <->
      (exists e, getClient rt key = Throw e)
      \/ exists ai, getClient rt key = Normal ai
         /\ ((exists e, generateContent rt WriteCall ai (writeRequest rawNotes) = Rejected e)
             \/ exists response,
                  generateContent rt WriteCall ai (writeRequest rawNotes) = Fulfilled response
                  /\ (text response = None \/ text response = Some []
                      \/ exists t, text response = Some t /\ JSONText.parse t = None)))
  /\ (forall e, writeReport rt rawNotes key = Rejected e -> e = WritingError).
Proof.
  rewrite writeReport_unfold.
  destruct (getClient rt key) as [ai|e0] eqn:Hc.
  2:{ split; [|split].
      - intros v. split; [done|]. by intros (? & ? & ? & ? & _).
      - split; [intros _; left; by eexists|done].
      - by intros e [= <-]. }
  assert (Hfulfilled : forall v (P : Prop),
    (exists ai' response t,
       Normal ai = Normal ai'
       /\ generateContent rt WriteCall ai' (writeRequest rawNotes) = Fulfilled response
       /\ text response = Some t /\ t <> [] /\ JSONText.parse t = Some v) ->
    (forall t, generateContent rt WriteCall ai (writeRequest rawNotes)
               = Fulfilled {| text := Some t |} ->
               t <> [] -> JSONText.parse t = Some v -> P) -> P).
  { intros v P (ai' & [txt] & t & [= <-] & Hg & Ht & Hne & Hp) HP.
    simpl in Ht. subst txt. eauto. }
  assert (Hrejected : forall P : Prop,
    ((exists e, Normal ai = Throw e)
     \/ exists ai', Normal ai = Normal ai'
        /\ ((exists e, generateContent rt WriteCall ai' (writeRequest rawNotes) = Rejected e)
            \/ exists response,
                 generateContent rt WriteCall ai' (writeRequest rawNotes) = Fulfilled response
                 /\ (text response = None \/ text response = Some []
                     \/ exists t, text response = Some t /\ JSONText.parse t = None))) ->
    ((exists e, generateContent rt WriteCall ai (writeRequest rawNotes) = Rejected e) -> P) ->
    (forall txt, generateContent rt WriteCall ai (writeRequest rawNotes)
                 = Fulfilled {| text := txt |} ->
                 txt = None \/ txt = Some []
                 \/ (exists t, txt = Some t /\ JSONText.parse t = None) -> P) -> P).
  { intros P [[e [=]]|(ai' & [= <-] & [He|([txt] & Hr & Ht)])] H1 H2; eauto. }
  destruct (generateContent rt WriteCall ai (writeRequest rawNotes))
    as [|[txt]|e0] eqn:Hg; cbn [text].
  - split; [|split].
    + intros v. split; [done|]. intros H. by apply (Hfulfilled _ _ H).
    + split; [done|]. intros H. apply (Hrejected _ H); [by intros [? ?]|done].
    + done.
  - destruct txt as [[|c t]|].
    + split; [|split].
      * intros v. split; [done|]. intros H. apply (Hfulfilled _ _ H).
        by intros t [= <-].
      * split; [|done]. intros _. right. exists ai. split; [done|]. right.
        eexists. split; [done|]. by right; left.
      * by intros e [= <-].
    + destruct (JSONText.parse (c :: t)) as [v'|] eqn:Hp.
      * split; [|split].
        -- intros v. split.
           ++ intros [= <-]. by exists ai, {| text := Some (c :: t) |}, (c :: t).
           ++ intros H. apply (Hfulfilled _ _ H).
              intros t' [= <-] _ Hp'. congruence.
        -- split; [done|]. intros H. apply (Hrejected _ H); [by intros [? ?]|].
           intros txt [= <-] [|[|(t' & ? & ?)]]; congruence.
        -- done.
      * split; [|split].
        -- intros v. split; [done|]. intros H. apply (Hfulfilled _ _ H).
           intros t' [= <-] _ Hp'. congruence.
        -- split; [|done]. intros _. right. exists ai. split; [done|]. right.
           eexists. split; [done|]. right; right. by eexists.
        -- by intros e [= <-].
    + split; [|split].
      * intros v. split; [done|]. intros H. by apply (Hfulfilled _ _ H).
      * split; [|done]. intros _. right. exists ai. split; [done|]. right.
        eexists. split; [done|]. by left.
      * by intros e [= <-].
  - split; [|split].
    + intros v. split; [done|]. intros H. by apply (Hfulfilled _ _ H).
    + split; [|done]. intros _. right. exists ai. split; [done|]. left. by eexists.
    + by intros e [= <-].
Qed.

(** C1, on the code.  A response without [verdict] is valid JSON, so
    [writeReport], instead of failing with the writing error, returns it
    as the report although a required field is missing, and the run
    publishes it and ends in [complete] with no error. *)
Lemma writeReport_accepts_missing_verdict :
  writeReport rt_noVerdict (js "notes") (Some (js "k-123")) = Fulfilled noVerdictReport
  /\ field (js "verdict") noVerdictReport = None
  /\ hasRequiredFields noVerdictReport = false
  /\ step (after (handleResearch rt_noVerdict) st_cars) = Step.complete
  /\ report (after (handleResearch rt_noVerdict) st_cars) = noVerdictReport
  /\ error (after (handleResearch rt_noVerdict) st_cars) = None.
Proof. vm_compute. repeat split. Qed.

(** ** Error messages *)

(** C3, as the code has it.  The message of a failed stage is the
    stage's own, whatever made the stage fail; the three messages differ
    from each other, and the message a failed run shows is that of the
    stage it called last. *)
Theorem error_message_identifies_stage (rt : Runtime) (st : AppState) :
  (forall q k e, planTopic rt q k = Rejected e -> e = PlanningError)
  /\ (forall d k e, mapContent rt d k = Rejected e -> e = MappingError)
  /\ (forall n k e, writeReport rt n k = Rejected e -> e = WritingError)
  /\ NoDup [message PlanningError; message MappingError; message WritingError]
  /\ (blank (query st) = false ->
      step (after (handleResearch rt) st) = Step.error ->
      let r := (handleResearch rt (start st)).2 in
      (last (invoked r) = Some Planner
       /\ error (current r) = Some (message PlanningError))
      \/ (last (invoked r) = Some Extractor
          /\ error (current r) = Some (message MappingError))
      \/ (last (invoked r) = Some Synthesizer
          /\ error (current r) = Some (message WritingError))).
Proof.
  split; [apply planTopic_rejected|].
  split; [apply mapContent_rejected|].
  split; [apply writeReport_rejected|].
  split.
  { apply (bool_decide_unpack _). vm_compute. exact I. }
  intros Hb. unfold after.
  run_cases rt st Hb; stage_failure; (discriminate || auto).
Qed.

(** C3, as stated, fails: a transport failure and an unparsable answer in
    the writing stage are two causes with one message. *)
Lemma transport_and_parse_failure_same_message :
  generateContent rt_writeTransport WriteCall {| client_apiKey := js "k-123" |}
    (writeRequest (js "notes")) = Rejected (mkError (js "fetch failed"))
  /\ generateContent rt_writeGarbage WriteCall {| client_apiKey := js "k-123" |}
       (writeRequest (js "notes")) = respond (js "Sorry, I cannot help.")
  /\ JSONText.parse (js "Sorry, I cannot help.") = None
  /\ writeReport rt_writeTransport (js "notes") (Some (js "k-123"))
     = writeReport rt_writeGarbage (js "notes") (Some (js "k-123"))
  /\ error (after (handleResearch rt_writeTransport) st_cars)
     = Some (message WritingError)
  /\ error (after (handleResearch rt_writeGarbage) st_cars)
     = Some (message WritingError).
Proof. vm_compute. repeat split. Qed.

(** ** Failure, reset and the entry guard *)

(** The [catch] block writes the error message and the step, and nothing
    else. *)
Lemma onFailure_frame (e : Error) (r : Run) :
  let r' := (onFailure e r).2 in
  refinedTopic (current r') = refinedTopic (current r)
  /\ report (current r') = report (current r)
  /\ query (current r') = query (current r)
  /\ apiKey (current r') = apiKey (current r)
  /\ step (current r') = Step.error
  /\ error (current r') = Some (or_else (message e) unexpectedError).
Proof. done. Qed.

(** C8. A run that ends in [error] ends with the two setter calls of the
    [catch] block, applied to the state the run had reached: they publish
    a non-empty message, that of the stage that failed, and leave the
    refined topic and the report as they were.  In particular the topic
    the Planner produced, once published, is still there. *)
Theorem failure_preserves_published (rt : Runtime) (st : AppState) :
  blank (query st) = false ->
  step (after (handleResearch rt) st) = Step.error ->
  let r := (handleResearch rt (start st)).2 in
  exists pre before msg,
    history r = pre ++ [before; setError (Some msg) before;
                        setStep Step.error (setError (Some msg) before)]
    /\ current r = setStep Step.error (setError (Some msg) before)
    /\ truthy msg = true
    /\ msg ∈ [message PlanningError; message MappingError; message WritingError]
    /\ error (current r) = Some msg
    /\ refinedTopic (current r) = refinedTopic before
    /\ report (current r) = report before
    /\ (forall topic,
          planTopic rt (query st) (Some (apiKey st)) = Fulfilled topic ->
          refinedTopic (current r) = topic).
Proof.
  intros Hb. unfold after.
  run_cases rt st Hb; stage_failure; try discriminate; intros _.
  - eexists [_; _; _; _; _; _; _], _, _. split; [reflexivity|].
    repeat split;
      [apply list_elem_of_further, list_elem_of_further, list_elem_of_here
      |by intros ? [= <-]].
  - eexists [_; _; _; _; _; _], _, _. split; [reflexivity|].
    repeat split;
      [apply list_elem_of_further, list_elem_of_here|by intros ? [= <-]].
  - eexists [_; _; _], _, _. split; [reflexivity|].
    repeat split; [apply list_elem_of_here|done].
Qed.

Lemma failure_preserves_published_witness :
  exists pre before msg,
    history (handleResearch rt_mapFails (start st_cars)).2
    = pre ++ [before; setError (Some msg) before;
              setStep Step.error (setError (Some msg) before)]
    /\ msg = message MappingError
    /\ refinedTopic st_failed = js "EV transition in 2025".
Proof.
  destruct (failure_preserves_published rt_mapFails st_cars eq_refl eq_refl)
    as (pre & before & msg & Hh & Hc & _ & _ & He & _ & _ & Ht).
  exists pre, before, msg. split; [exact Hh|]. split.
  - injection He as <-. reflexivity.
  - exact (Ht _ eq_refl).
Defined.

(** A finished run holds no error message. *)
Lemma complete_has_no_error (rt : Runtime) (st : AppState) :
  blank (query st) = false ->
  step (after (handleResearch rt) st) = Step.complete ->
  error (after (handleResearch rt) st) = None.
Proof.
  intros Hb. unfold after.
  run_cases rt st Hb; stage_failure; (discriminate || done).
Qed.

(** Reset after a finished run whose report is on the page: Conduct New
    Research goes back to [idle] and clears the query, the topic and the
    report; the error message, which it does not touch, is absent in that
    state. *)
Lemma conductNewResearch_clears (st : AppState) :
  showsReport st = true ->
  error st = None ->
  after onClickConductNewResearch st
  = {| apiKey := apiKey st; query := []; step := Step.idle;
       refinedTopic := []; report := null; error := None |}.
Proof.
  intros Hs He. unfold after, onClickConductNewResearch. cbn.
  rewrite Hs. destruct st. cbn in *. by subst.
Qed.

(** C4, on the code.  Reset System sets the step to [idle] and nothing
    else: after the failed run of [rt_mapFails], which ends in [error]
    with a message and a published topic, it leaves both in place. *)
Theorem reset_system_keeps_run_data :
  (forall st, after onClickResetSystem st = setStep Step.idle st)
  /\ step st_failed = Step.error
  /\ step (after onClickResetSystem st_failed) = Step.idle
  /\ error (after onClickResetSystem st_failed) = Some (message MappingError)
  /\ refinedTopic (after onClickResetSystem st_failed) = js "EV transition in 2025".
Proof. split; [done|]. vm_compute. repeat split. Qed.

Lemma runDisabled_spec (s : AgentStep) :
  runDisabled s = true
  <-> s <> Step.idle /\ s <> Step.complete /\ s <> Step.error.
Proof. destruct s; vm_compute; intuition congruence. Qed.

(** C2, as the code has it.  While PipelineState is none of [idle],
    [complete] and [error], the two controls that start a run, the
    Initiate button and the Enter key of the query input, are disabled:
    a run request made through them does nothing, so that no second run
    starts and the state, run-scoped data included, stays as it is. *)
Theorem run_controls_disabled_while_running (rt : Runtime) (st : AppState)
    (key : jsstring) :
  step st <> Step.idle -> step st <> Step.complete -> step st <> Step.error ->
  runDisabled (step st) = true
  /\ onClickInitiate rt (start st) = (Done (), start st)
  /\ onKeyDownQuery rt key (start st) = (Done (), start st).
Proof.
  intros H1 H2 H3.
  assert (Hd : runDisabled (step st) = true) by by apply runDisabled_spec.
  unfold onClickInitiate, onKeyDownQuery. cbn. by rewrite Hd.
Qed.

Lemma run_controls_disabled_while_running_witness :
  onClickInitiate rt_ok (start st_busy) = (Done (), start st_busy)
  /\ onKeyDownQuery rt_ok (js "Enter") (start st_busy) = (Done (), start st_busy).
Proof.
  refine (proj2 (run_controls_disabled_while_running rt_ok st_busy (js "Enter")
                   _ _ _)); vm_compute; discriminate.
Defined.

(** C2, as stated, fails for the handler itself: [handleResearch] looks
    at the query only, so called during the extraction stage of a run it
    clears the published topic and starts a second run. *)
Lemma handleResearch_has_no_state_guard :
  step st_busy = Step.mapping
  /\ refinedTopic st_busy = js "EV transition in 2025"
  /\ (refinedTopic <$> history (handleResearch rt_ok (start st_busy)).2 !! 3)
     = Some []
  /\ invoked (handleResearch rt_ok (start st_busy)).2
     = [Planner; Retrieval; Extractor; Synthesizer]
  /\ handleResearch rt_ok (start st_busy) <> (Done (), start st_busy).
Proof. vm_compute. repeat split. discriminate. Qed.

(** ** The retrieval stage *)

(** C10. [fetchMockSearch] is fulfilled, for every topic, with three
    documents labelled Academic Paper, Tech Blog and Market Report, each
    of whose contents contains the topic.  In a run, the state that has
    step [searching] is therefore always followed by one with step
    [mapping]: retrieval neither fails nor returns no document. *)
Theorem fetchMockSearch_total (rt : Runtime) (st : AppState)
    (refinedTopic : jsstring) :
  (exists c0 c1 c2,
     fetchMockSearch refinedTopic
     = Fulfilled [ {| source := js "Academic Paper"; content := c0 |};
                   {| source := js "Tech Blog"; content := c1 |};
                   {| source := js "Market Report"; content := c2 |} ]
     /\ Forall (fun c => exists p s, c = p ++ refinedTopic ++ s) [c0; c1; c2])
  /\ (forall i s,
        history (handleResearch rt (start st)).2 !! i = Some s ->
        step s = Step.searching ->
        exists s', history (handleResearch rt (start st)).2 !! S i = Some s'
                   /\ step s' = Step.mapping)
  /\ last (invoked (handleResearch rt (start st)).2) <> Some Retrieval.
Proof.
  split.
  { do 3 eexists. split; [reflexivity|].
    repeat (apply Forall_cons; split; [by do 2 eexists|]). apply Forall_nil_2. }
  destruct (blank (query st)) eqn:Hb.
  { unfold handleResearch. cbn. rewrite Hb. cbn. split; [|done].
    intros i s Hi. by rewrite lookup_nil in Hi. }
  run_cases rt st Hb; stage_failure; (split; [|done]); intros i s Hi Hs;
    repeat match type of Hi with
      | (_ :: _) !! _ = Some _ =>
          destruct i as [|i]; [simplify_eq/=; by eauto|simpl in Hi]
      end;
    by rewrite lookup_nil in Hi.
Qed.

(** ** Worked examples *)

Example trim_example : trim (js "  EV shift " ++ [9; 160]%N) = js "EV shift".
Proof. reflexivity. Qed.

Example parse_example :
  JSONText.parse (jsq "{ 'a' : [1, -2.5e3, true, null], 'b\u0041' : 'x\ny', 'a' : {} }")
  = Some (JObject [(js "a", JObject []); (js "bA", JString (js "x" ++ newline ++ js "y"))]).
Proof. vm_compute. reflexivity. Qed.

Example parse_nested :
  JSONText.parse (jsq "[[[[{'a':[[{'b':[[]]}]]}]]]]")
  = Some (JArray [JArray [JArray [JArray [JObject [(js "a",
      JArray [JArray [JObject [(js "b", JArray [JArray []])]]])]]]]]).
Proof. vm_compute. reflexivity. Qed.

Example parse_rejects_trailing : JSONText.parse (js "[1,]") = None.
Proof. reflexivity. Qed.

Example parse_rejects_garbage : JSONText.parse (js "Sorry, I cannot help.") = None.
Proof. reflexivity. Qed.

Example Promise_all_example :
  Promise_all [Fulfilled 10; Fulfilled 11; Fulfilled 12] [2; 0; 1]
  = Fulfilled [10; 11; 12].
Proof. reflexivity. Qed.

(** The end-to-end run of the specification: the query Cars, a refined
    topic, three documents, three extracted facts and a full report. *)
Example run_cars :
  let r := (handleResearch rt_ok (start st_cars)).2 in
  step <$> history r
  = [Step.planning; Step.planning; Step.planning; Step.planning; Step.planning;
     Step.searching; Step.mapping; Step.writing; Step.writing; Step.complete]
  /\ invoked r = [Planner; Retrieval; Extractor; Synthesizer]
  /\ refinedTopic (current r) = js "EV transition in 2025"
  /\ isResearchReport (report (current r)) = true
  /\ field (js "verdict") (report (current r)) = Some (JString (js "Accelerating"))
  /\ error (current r) = None.
Proof. vm_compute. repeat split. Qed.

Example mapContent_rt_ok :
  mapContent rt_ok [ {| source := js "A"; content := js "a" |};
                     {| source := js "B"; content := js "b" |};
                     {| source := js "C"; content := js "c" |} ] (Some (js "k"))
  = Fulfilled (js "GPU costs fell 40%." ++ newline ++ js "Debugging is hard."
               ++ newline ++ js "$5B invested.").
Proof. reflexivity. Qed.

(** * Further properties of the code *)

(** ** The credential *)

Lemma getClient_no_key (rt : Runtime) (key : option jsstring) :
  key = None \/ key = Some [] ->
  env_API_KEY rt = None \/ env_API_KEY rt = Some [] ->
  exists e, getClient rt key = Throw e.
Proof. unfold getClient. intros [->| ->] [->| ->]; simpl; by eexists. Qed.

(** X1. A non-empty key typed by the user is the one the client is built
    with, whatever the environment holds; the environment key is used
    only when the user's key is absent or empty; a client never holds an
    empty key; and with no key on either side [getClient] throws. *)
Theorem getClient_precedence (rt : Runtime) (key : option jsstring) :
  (forall k, key = Some k -> truthy k = true ->
     getClient rt key = Normal {| client_apiKey := k |})
  /\ (forall k, key = None \/ key = Some [] ->
        env_API_KEY rt = Some k -> truthy k = true ->
        getClient rt key = Normal {| client_apiKey := k |})
  /\ (forall ai, getClient rt key = Normal ai ->
        truthy (client_apiKey ai) = true
        /\ (key = Some (client_apiKey ai)
            \/ ((key = None \/ key = Some [])
                /\ env_API_KEY rt = Some (client_apiKey ai))))
  /\ (key = None \/ key = Some [] ->
      env_API_KEY rt = None \/ env_API_KEY rt = Some [] ->
      exists e, getClient rt key = Throw e).
Proof.
  split; [|split; [|split]].
  - intros k -> Hk. unfold getClient. simpl. by rewrite !Hk.
  - unfold getClient. intros k [->| ->] -> Hk; simpl; by rewrite Hk.
  - intros ai. unfold getClient.
    destruct key as [[|c k]|], (env_API_KEY rt) as [[|d k']|];
      simpl; intros H; simplify_eq; simpl; auto.
  - apply getClient_no_key.
Qed.

(** X2. With no key, neither typed nor in the environment, every stage
    is rejected with its own error whatever the service would answer, and
    a run fails in planning: it ends in [error] with the planning message
    and no other stage is called. *)
Theorem no_credential_fails_every_stage (rt : Runtime) (key : option jsstring) :
  key = None \/ key = Some [] ->
  env_API_KEY rt = None \/ env_API_KEY rt = Some [] ->
  (forall q, planTopic rt q key = Rejected PlanningError)
  /\ (forall d, mapContent rt d key = Rejected MappingError)
  /\ (forall n, writeReport rt n key = Rejected WritingError)
  /\ forall st, key = Some (apiKey st) -> blank (query st) = false ->
       let r := (handleResearch rt (start st)).2 in
       step (current r) = Step.error
       /\ error (current r) = Some (message PlanningError)
       /\ invoked r = [Planner].
Proof.
  intros Hk He.
  destruct (getClient_no_key rt key Hk He) as [e Hc].
  assert (Hp : forall q, planTopic rt q key = Rejected PlanningError).
  { intros q. unfold planTopic. by rewrite Hc. }
  split; [exact Hp|].
  split; [intros d; unfold mapContent; by rewrite Hc|].
  split; [intros n; unfold writeReport; by rewrite Hc|].
  intros st -> Hb.
  unfold handleResearch; cbn; rewrite Hb;
    unfold try_, mbind, Async_bind; cbn.
  rewrite Hp. cbn. by rewrite onFailure_run.
Qed.

Lemma no_credential_fails_every_stage_witness :
  step (after (handleResearch rt_noKey) (setApiKey [] st_cars)) = Step.error
  /\ error (after (handleResearch rt_noKey) (setApiKey [] st_cars))
     = Some (message PlanningError)
  /\ invoked (handleResearch rt_noKey (start (setApiKey [] st_cars))).2 = [Planner].
Proof.
  refine (proj2 (proj2 (proj2
    (no_credential_fails_every_stage rt_noKey (Some []) _ _)))
    (setApiKey [] st_cars) _ _).
  - right. reflexivity.
  - left. reflexivity.
  - reflexivity.
  - reflexivity.
Defined.

(** ** Trimming and the refined topic *)

(** X3. The topic [planTopic] returns is the query itself or a non-empty
    string that neither begins nor ends with white space; so for a query
    that is not blank the topic is not blank either, and its banner is
    shown. *)
Theorem planTopic_topic_shape (rt : Runtime) (userQuery : jsstring)
    (key : option jsstring) (topic : jsstring) :
  planTopic rt userQuery key = Fulfilled topic ->
  (topic = userQuery
   \/ (truthy topic = true /\ trim topic = topic
       /\ (forall c, head topic = Some c -> isWhiteSpace c = false)
       /\ (forall c, last topic = Some c -> isWhiteSpace c = false)))
  /\ (blank userQuery = false -> blank topic = false).
Proof.
  intros H.
  assert (Hshape : topic = userQuery
                   \/ (truthy topic = true /\ trim topic = topic)).
  { revert H. unfold planTopic.
    destruct (getClient rt key) as [ai|e]; cbn; [|done].
    destruct (generateContent rt PlanCall ai (planRequest userQuery))
      as [|[[t|]]|e]; cbn; try done; [|intros [= <-]; by left].
    unfold or_else. destruct (truthy (trim t)) eqn:Ht; intros [= <-];
      [right|by left].
    split; [done|apply trim_idempotent]. }
  split.
  - destruct Hshape as [->|[Ht Hid]]; [by left|right].
    split; [done|]. split; [done|].
    destruct (trim_clean topic) as [H1 H2]. rewrite Hid in H1, H2.
    split.
    + intros c Hc. destruct topic as [|d r]; simplify_eq/=.
      by apply (H1 c r).
    + intros c Hc. rewrite <- head_reverse in Hc.
      destruct (reverse topic) as [|d r] eqn:Hr; simplify_eq/=.
      by apply (H2 c r).
  - intros Hb. destruct Hshape as [->|[Ht Hid]]; [done|].
    unfold blank. by rewrite Hid, Ht.
Qed.

Lemma planTopic_topic_shape_witness :
  blank (js "EV transition in 2025") = false.
Proof.
  refine (proj2 (planTopic_topic_shape rt_ok (js "Cars") (Some (js "k-123"))
                   (js "EV transition in 2025") _) _); reflexivity.
Defined.

(** ** The fan-in barrier *)

(** A promise that is not fulfilled keeps its slot empty. *)
Lemma consistent_incomplete {A} (promises : list (Promise A))
    (values : list (option A)) (i : nat) (p : Promise A) :
  consistent promises values ->
  promises !! i = Some p ->
  (forall v, p <> Fulfilled v) ->
  mapM id values = None.
Proof.
  intros [Hlen Hval] Hi Hp.
  destruct (mapM id values) as [vs|] eqn:Hm; [exfalso|done].
  apply mapM_Some_1 in Hm.
  pose proof (lookup_lt_Some _ _ _ Hi) as Hlt. rewrite <- Hlen in Hlt.
  apply lookup_lt_is_Some in Hlt as [x Hx].
  destruct (Forall2_lookup_l _ _ _ _ _ Hm Hx) as (y & _ & Hxy).
  simpl in Hxy. subst x. apply Hval in Hx.
  rewrite Hi in Hx. injection Hx as ->. by eapply Hp.
Qed.

(** While a promise never settles and none is rejected, [Promise.all]
    does not settle, however many of the others are fulfilled. *)
Lemma settle_all_pending {A} (promises : list (Promise A)) (order : list nat)
    (i : nat) : forall values,
  consistent promises values ->
  promises !! i = Some Pending ->
  (forall j e, promises !! j <> Some (Rejected e)) ->
  settle_all promises values order = Pending.
Proof.
  induction order as [|a rest IH]; intros values Hc Hi Hrej; simpl;
    rewrite (consistent_incomplete promises values i Pending) by done;
    [done|].
  destruct (promises !! a) as [[|v|e]|] eqn:Ha.
  - by apply IH.
  - apply IH; [by apply consistent_insert|done..].
  - by destruct (Hrej a e).
  - by apply IH.
Qed.

(** X4. [mapContent] does not return before every extraction call has
    settled: if the call for one document never settles and no call is
    rejected, [mapContent] never settles either, and the run stays in
    [mapping], with no error and without calling the writing stage. *)
Theorem mapContent_waits_for_all (rt : Runtime) (documents : list SearchResult)
    (key : option jsstring) (ai : GoogleGenAI) (i : nat) (doc : SearchResult) :
  getClient rt key = Normal ai ->
  documents !! i = Some doc ->
  generateContent rt (MapCall i) ai (mapRequest doc) = Pending ->
  (forall j d e, documents !! j = Some d ->
     generateContent rt (MapCall j) ai (mapRequest d) <> Rejected e) ->
  mapContent rt documents key = Pending
  /\ forall st topic,
       blank (query st) = false -> key = Some (apiKey st) ->
       planTopic rt (query st) key = Fulfilled topic ->
       fetchMockSearch topic = Fulfilled documents ->
       (handleResearch rt (start st)).1 = Stuck
       /\ step (after (handleResearch rt) st) = Step.mapping
       /\ error (after (handleResearch rt) st) = None
       /\ invoked (handleResearch rt (start st)).2 = [Planner; Retrieval; Extractor].
Proof.
  intros Hclient Hdoc Hgen Hrej.
  assert (H : mapContent rt documents key = Pending).
  { unfold mapContent. rewrite Hclient. cbn. unfold Promise_all.
    rewrite (settle_all_pending _ _ i); [done|apply consistent_init| |].
    - rewrite list_lookup_imap, Hdoc. simpl.
      unfold extractFacts. by rewrite Hgen.
    - intros j e. rewrite list_lookup_imap.
      destruct (documents !! j) as [d|] eqn:Hd; [|done]. simpl.
      unfold extractFacts. specialize (Hrej j d).
      destruct (generateContent rt (MapCall j) ai (mapRequest d)) as [|r|e'];
        cbn; [done..|].
      intros [= ->]. by eapply Hrej. }
  split; [exact H|].
  intros st topic Hb -> Hplan Hdocs. unfold after.
  unfold handleResearch; cbn; rewrite Hb;
    unfold try_, mbind, Async_bind; cbn.
  rewrite Hplan. cbn. rewrite Hdocs. cbn. by rewrite H.
Qed.

Lemma mapContent_waits_for_all_witness :
  mapContent rt_mapHangs
    [ {| source := js "A"; content := js "a" |};
      {| source := js "B"; content := js "b" |};
      {| source := js "C"; content := js "c" |} ] (Some (js "k-123"))
  = Pending.
Proof.
  refine (proj1 (mapContent_waits_for_all rt_mapHangs _ (Some (js "k-123"))
                   {| client_apiKey := js "k-123" |} 2
                   {| source := js "C"; content := js "c" |} _ _ _ _)).
  - reflexivity.
  - reflexivity.
  - reflexivity.
  - intros [|[|[|j]]] d e Hd; simplify_eq/=; discriminate.
Defined.

(** ** What the writing stage accepts *)

(** X6. An answer wrapped in a Markdown code fence is not JSON: whatever
    follows the fence, [writeReport] is rejected with the writing
    error. *)
Theorem writeReport_rejects_fenced (rt : Runtime) (rawNotes : jsstring)
    (key : option jsstring) (ai : GoogleGenAI) (body : jsstring) :
  getClient rt key = Normal ai ->
  generateContent rt WriteCall ai (writeRequest rawNotes)
  = Fulfilled {| text := Some (js "```" ++ body) |} ->
  JSONText.parse (js "```" ++ body) = None
  /\ writeReport rt rawNotes key = Rejected WritingError.
Proof.
  intros Hclient Hgen.
  assert (Hp : JSONText.parse (js "```" ++ body) = None) by reflexivity.
  split; [exact Hp|].
  rewrite writeReport_unfold, Hclient, Hgen.
  change (match JSONText.parse (js "```" ++ body) with
          | Some v => Fulfilled v
          | None => Rejected WritingError
          end = Rejected WritingError).
  by rewrite Hp.
Qed.

Lemma writeReport_rejects_fenced_witness :
  writeReport rt_fenced (js "notes") (Some (js "k-123")) = Rejected WritingError.
Proof.
  refine (proj2 (writeReport_rejects_fenced rt_fenced (js "notes")
                   (Some (js "k-123")) {| client_apiKey := js "k-123" |}
                   (js "json" ++ newline ++ fullReportText ++ newline ++ js "```")
                   _ _)); reflexivity.
Defined.

(** ** Runs of the orchestrator *)

(** X7. A run in which the three generation stages succeed goes through
    the steps planning, searching, mapping, writing, complete in that
    order, calls the four stages once each in the order of the pipeline,
    feeds each stage the result of the one before, and ends holding the
    planned topic and the report, with no error. *)
Theorem successful_run (rt : Runtime) (st : AppState) (topic : jsstring)
    (docs : list SearchResult) (notes : jsstring) (rep : JSON) :
  blank (query st) = false ->
  planTopic rt (query st) (Some (apiKey st)) = Fulfilled topic ->
  fetchMockSearch topic = Fulfilled docs ->
  mapContent rt docs (Some (apiKey st)) = Fulfilled notes ->
  writeReport rt notes (Some (apiKey st)) = Fulfilled rep ->
  (handleResearch rt (start st)).1 = Done ()
  /\ step <$> history (handleResearch rt (start st)).2
     = [Step.planning; Step.planning; Step.planning; Step.planning;
        Step.planning; Step.searching; Step.mapping; Step.writing;
        Step.writing; Step.complete]
  /\ invoked (handleResearch rt (start st)).2
     = [Planner; Retrieval; Extractor; Synthesizer]
  /\ after (handleResearch rt) st
     = {| apiKey := apiKey st; query := query st; step := Step.complete;
          refinedTopic := topic; report := rep; error := None |}.
Proof.
  intros Hb Hplan Hdocs Hmap Hwrite. unfold after.
  unfold handleResearch; cbn; rewrite Hb;
    unfold try_, mbind, Async_bind; cbn.
  rewrite Hplan. cbn. rewrite Hdocs. cbn. rewrite Hmap. cbn.
  rewrite Hwrite. cbn. done.
Qed.

Lemma successful_run_witness :
  step (after (handleResearch rt_ok) st_cars) = Step.complete
  /\ refinedTopic (after (handleResearch rt_ok) st_cars) = js "EV transition in 2025".
Proof.
  destruct (successful_run rt_ok st_cars (js "EV transition in 2025")
              _ _ _ eq_refl eq_refl eq_refl eq_refl eq_refl)
    as (_ & _ & _ & ->).
  split; reflexivity.
Defined.

(** X8. When planning fails the run stops there: the state ends in
    [error] with the planning message, the topic and the report of an
    earlier run are gone, no later stage is called and none of the steps
    searching, mapping, writing and complete is ever entered. *)
Theorem planning_failure_stops_run (rt : Runtime) (st : AppState) (e : Error) :
  blank (query st) = false ->
  planTopic rt (query st) (Some (apiKey st)) = Rejected e ->
  after (handleResearch rt) st
  = {| apiKey := apiKey st; query := query st; step := Step.error;
       refinedTopic := []; report := null;
       error := Some (message PlanningError) |}
  /\ invoked (handleResearch rt (start st)).2 = [Planner]
  /\ Forall (fun s => step s = Step.planning \/ step s = Step.error)
       (history (handleResearch rt (start st)).2).
Proof.
  intros Hb Hplan. unfold after.
  pose proof (planTopic_rejected _ _ _ _ Hplan) as ->.
  unfold handleResearch; cbn; rewrite Hb;
    unfold try_, mbind, Async_bind; cbn.
  rewrite Hplan. cbn. rewrite onFailure_run by reflexivity. cbn.
  split; [done|]. split; [done|].
  repeat (apply Forall_cons; split; [cbn; auto|]). apply Forall_nil_2.
Qed.

Lemma planning_failure_stops_run_witness :
  after (handleResearch rt_noKey) (setApiKey [] st_busy)
  = {| apiKey := []; query := js "Cars"; step := Step.error;
       refinedTopic := []; report := null;
       error := Some (message PlanningError) |}.
Proof.
  refine (proj1 (planning_failure_stops_run rt_noKey (setApiKey [] st_busy)
                   PlanningError _ _)); reflexivity.
Defined.

(** X9. Whatever the service does and whatever state it is called in,
    [handleResearch] never changes the query or the API key, and the
    stages it calls are an initial part of Planner, Retrieval, Extractor,
    Synthesizer: none is skipped, repeated or called out of order. *)
Theorem run_frame_and_stage_order (rt : Runtime) (st : AppState) :
  Forall (fun s => query s = query st /\ apiKey s = apiKey st)
    (history (handleResearch rt (start st)).2)
  /\ query (after (handleResearch rt) st) = query st
  /\ apiKey (after (handleResearch rt) st) = apiKey st
  /\ invoked (handleResearch rt (start st)).2
     `prefix_of` [Planner; Retrieval; Extractor; Synthesizer].
Proof.
  unfold after. destruct (blank (query st)) eqn:Hb.
  { unfold handleResearch. cbn. rewrite Hb. cbn.
    repeat split; [apply Forall_nil_2|by eexists]. }
  run_cases rt st Hb; stage_failure;
    (split; [repeat (apply Forall_cons; split; [done|]); apply Forall_nil_2|]);
    (split; [done|]); (split; [done|]); by eexists.
Qed.

(** X10. The handler never throws.  If it waits for ever on a stage, the
    state is left in the step of that stage (planning, mapping or
    writing) with the run controls disabled, no error panel, no API key
    input and no report section: nothing on the page can be used.  If it
    returns after an accepted run, the step is [complete] or [error];
    and when the run failed, or the report section is on the page, the
    run controls are enabled again. *)
Theorem run_outcomes (rt : Runtime) (st : AppState) :
  (forall e, (handleResearch rt (start st)).1 <> Threw e)
  /\ ((handleResearch rt (start st)).1 = Stuck ->
      step (after (handleResearch rt) st) ∈ [Step.planning; Step.mapping; Step.writing]
      /\ runDisabled (step (after (handleResearch rt) st)) = true
      /\ showsErrorPanel (after (handleResearch rt) st) = false
      /\ showsApiKeyInput (after (handleResearch rt) st) = false
      /\ showsReport (after (handleResearch rt) st) = false)
  /\ ((handleResearch rt (start st)).1 = Done () ->
      blank (query st) = false ->
      step (after (handleResearch rt) st) ∈ [Step.complete; Step.error]
      /\ (step (after (handleResearch rt) st) = Step.error
          \/ showsReport (after (handleResearch rt) st) = true ->
          runDisabled (step (after (handleResearch rt) st)) = false)).
Proof.
  unfold after. destruct (blank (query st)) eqn:Hb.
  { unfold handleResearch. cbn. rewrite Hb. cbn. done. }
  run_cases rt st Hb; stage_failure;
    (split; [done|]); (split; [try done|try done]);
    intros _; try intros _; repeat split;
    rewrite ?elem_of_cons; auto.
Qed.

(** X11. No partial report: after an accepted run the state holds a
    report only if the step is [complete], and then it is the value the
    writing stage returned. *)
Theorem no_partial_report (rt : Runtime) (st : AppState) :
  blank (query st) = false ->
  (step (after (handleResearch rt) st) <> Step.complete ->
   report (after (handleResearch rt) st) = null)
  /\ (step (after (handleResearch rt) st) = Step.complete ->
      exists notes,
        writeReport rt notes (Some (apiKey st))
        = Fulfilled (report (after (handleResearch rt) st))).
Proof.
  intros Hb. unfold after.
  run_cases rt st Hb; stage_failure; (split; [done|]); try done.
  intros _. by eexists.
Qed.

Lemma no_partial_report_witness :
  report (after (handleResearch rt_writeGarbage) st_cars) = null.
Proof.
  refine (proj1 (no_partial_report rt_writeGarbage st_cars _) _).
  - reflexivity.
  - vm_compute. discriminate.
Defined.

(** X12. A run does not depend on what an earlier run left behind: from
    any state it ends as it does from a state that holds the same query
    and key and nothing else, and calls the same stages. *)
Theorem run_ignores_earlier_run (rt : Runtime) (st : AppState) :
  blank (query st) = false ->
  (handleResearch rt (start st)).1
  = (handleResearch rt (start (fresh (query st) (apiKey st)))).1
  /\ after (handleResearch rt) st
     = after (handleResearch rt) (fresh (query st) (apiKey st))
  /\ invoked (handleResearch rt (start st)).2
     = invoked (handleResearch rt (start (fresh (query st) (apiKey st)))).2.
Proof.
  intros Hb. unfold after.
  run_cases rt st Hb; stage_failure;
    rewrite ?onFailure_run by reflexivity; done.
Qed.

Lemma run_ignores_earlier_run_witness :
  after (handleResearch rt_ok) st_failed = after (handleResearch rt_ok) st_cars.
Proof.
  refine (proj1 (proj2 (run_ignores_earlier_run rt_ok st_failed _))).
  reflexivity.
Defined.

(** X13. Reset after a finished run: when the run ended with its report
    section on the page, Conduct New Research brings the component back
    to its initial state, but for the API key, which it keeps. *)
Theorem reset_after_complete (rt : Runtime) (st : AppState) :
  blank (query st) = false ->
  showsReport (after (handleResearch rt) st) = true ->
  after onClickConductNewResearch (after (handleResearch rt) st)
  = setApiKey (apiKey st) initialState.
Proof.
  intros Hb Hs.
  rewrite conductNewResearch_clears; [|done|].
  - replace (apiKey (after (handleResearch rt) st)) with (apiKey st); [done|].
    unfold after. run_cases rt st Hb; stage_failure; done.
  - apply complete_has_no_error; [done|].
    unfold showsReport in Hs. apply andb_true_iff in Hs as [Hs _].
    by apply bool_decide_eq_true in Hs.
Qed.

Lemma reset_after_complete_witness :
  after onClickConductNewResearch (after (handleResearch rt_ok) st_cars)
  = setApiKey (js "k-123") initialState.
Proof.
  refine (reset_after_complete rt_ok st_cars _ _); reflexivity.
Defined.

(** ** The page *)

(** X14. For every step the cards that are done are the first [k] of the
    four, and the active card, if there is one, is the one right after
    them; no card is active and done at once; all four are done exactly
    in [complete]; in [idle] and in [error] no card is active or done, so
    after a failure the cards do not show how far the run got.  A card
    draws the check mark exactly when it is done. *)
Theorem status_cards_progress (s : AgentStep) :
  exists k,
    k <= 4
    /\ isDone <$> statusCards s = replicate k true ++ replicate (4 - k) false
    /\ isActive <$> statusCards s
       = (if runDisabled s
          then replicate k false ++ true :: replicate (3 - k) false
          else replicate 4 false)
    /\ (k = 4 <-> s = Step.complete)
    /\ (s = Step.idle \/ s = Step.error -> k = 0)
    /\ Forall (fun p => isActive p && isDone p = false) (statusCards s)
    /\ Forall (fun p => shownIcon p = IconCheckCircle2 <-> isDone p = true)
         (statusCards s).
Proof.
  destruct s;
    [exists 0|exists 0|exists 1|exists 2|exists 3|exists 4|exists 0];
    (split; [lia|]); (split; [by vm_compute|]); (split; [by vm_compute|]);
    (split; [split; intros; (lia || congruence)|]);
    (split; [intros [|]; (lia || congruence)|]);
    split; repeat (apply Forall_cons; split; [by vm_compute|]);
    apply Forall_nil_2.
Qed.

(** X16. The two inputs are locked while a run is in progress: the query
    cannot be typed over and the API key input is not there.  The key
    input is absent in every step but [idle]; in [error], with the error
    panel on the page, a click on Reset System brings it back, and the
    key can then be replaced. *)
Theorem inputs_locked_during_run (st : AppState) (v : jsstring) :
  (runDisabled (step st) = true ->
   onChangeQuery v (start st) = (Done (), start st)
   /\ onChangeApiKey v (start st) = (Done (), start st))
  /\ (step st <> Step.idle -> onChangeApiKey v (start st) = (Done (), start st))
  /\ (step st = Step.error -> showsErrorPanel st = true ->
      apiKey (after (onClickResetSystem ;; onChangeApiKey v) st) = v).
Proof.
  split; [|split].
  - intros Hd. unfold onChangeQuery, onChangeApiKey, showsApiKeyInput. cbn.
    rewrite Hd. apply runDisabled_spec in Hd as (Hi & _).
    by rewrite bool_decide_eq_false_2.
  - intros Hi. unfold onChangeApiKey, showsApiKeyInput. cbn.
    by rewrite bool_decide_eq_false_2.
  - done.
Qed.

(** ** The report, from text to value *)

Lemma hex4_hexChar (c : N) :
  (c <? 32)%N = true ->
  JSONText.hex4 48 48 (hexChar (c / 16)) (hexChar (c mod 16)) = Some c.
Proof.
  destruct c as [|p]; [done|].
  do 6 (try (destruct p as [p|p|]; try done)).
Qed.

(** A quoted string reads back as the string. *)
Lemma parseChars_escape (s rest : jsstring) :
  JSONText.parseChars (escape s ++ 34%N :: rest) = Some (s, rest).
Proof.
  induction s as [|c r IH]; [done|].
  simpl escape. rewrite <- app_assoc. unfold escapeChar.
  destruct (c =? 34)%N eqn:E1.
  { apply N.eqb_eq in E1 as ->. simpl. by rewrite IH. }
  destruct (c =? 92)%N eqn:E2.
  { apply N.eqb_eq in E2 as ->. simpl. by rewrite IH. }
  destruct (c <? 32)%N eqn:E3.
  - simpl. by rewrite (hex4_hexChar c E3), IH.
  - simpl. by rewrite E1, E2, E3, IH.
Qed.

Lemma parseValue_string (f : nat) (s rest : jsstring) :
  JSONText.parseValue (S f) (quote s ++ rest) = Some (JString s, rest).
Proof.
  unfold quote, dquote. rewrite <- !app_assoc. simpl.
  by rewrite parseChars_escape.
Qed.

Lemma parseElements_more (f : nat) (s X : jsstring) (acc : list JSON) :
  JSONText.parseElements (S (S f)) (quote s ++ 44%N :: X) acc
  = JSONText.parseElements (S f) X (acc ++ [JString s]).
Proof.
  change (JSONText.parseElements (S (S f)) (quote s ++ 44%N :: X) acc)
    with (match JSONText.parseValue (S f) (quote s ++ 44%N :: X) with
          | Some (v, rest) =>
              match JSONText.skipWs rest with
              | c :: r =>
                  if (c =? 44)%N
                  then JSONText.parseElements (S f) r (acc ++ [v])
                  else if (c =? 93)%N then Some (JArray (acc ++ [v]), r)
                  else None
              | [] => None
              end
          | None => None
          end).
  by rewrite parseValue_string.
Qed.

Lemma parseElements_last (f : nat) (s rest : jsstring) (acc : list JSON) :
  JSONText.parseElements (S (S f)) (quote s ++ 93%N :: rest) acc
  = Some (JArray (acc ++ [JString s]), rest).
Proof.
  change (JSONText.parseElements (S (S f)) (quote s ++ 93%N :: rest) acc)
    with (match JSONText.parseValue (S f) (quote s ++ 93%N :: rest) with
          | Some (v, rest) =>
              match JSONText.skipWs rest with
              | c :: r =>
                  if (c =? 44)%N
                  then JSONText.parseElements (S f) r (acc ++ [v])
                  else if (c =? 93)%N then Some (JArray (acc ++ [v]), r)
                  else None
              | [] => None
              end
          | None => None
          end).
  by rewrite parseValue_string.
Qed.

Lemma parseElements_strings (l : list jsstring) :
  l <> [] -> forall f acc rest,
  length l < f ->
  JSONText.parseElements f (quoteList l ++ 93%N :: rest) acc
  = Some (JArray (acc ++ (JString <$> l)), rest).
Proof.
  induction l as [|s l IH]; [done|]. intros _ f acc rest Hf.
  destruct f as [|[|f]]; [simpl in Hf; lia..|].
  destruct l as [|s' l].
  - apply parseElements_last.
  - change (quoteList (s :: s' :: l) ++ 93%N :: rest)
      with ((quote s ++ 44%N :: quoteList (s' :: l)) ++ 93%N :: rest).
    rewrite <- app_assoc. simpl app at 2.
    rewrite parseElements_more, IH; [|done|simpl in *; lia].
    by rewrite <- app_assoc.
Qed.

Lemma parseValue_strings (f : nat) (l : list jsstring) (rest : jsstring) :
  length l < f ->
  JSONText.parseValue (S f) (91%N :: quoteList l ++ 93%N :: rest)
  = Some (JArray (JString <$> l), rest).
Proof.
  intros Hf. destruct l as [|s l]; [done|].
  transitivity (JSONText.parseElements f (quoteList (s :: l) ++ 93%N :: rest) []).
  { destruct l; reflexivity. }
  by rewrite parseElements_strings.
Qed.

Lemma parseMembers_more (f : nat) (k X Y : jsstring) (v : JSON)
    (acc : list (jsstring * JSON)) :
  JSONText.parseValue f X = Some (v, 44%N :: Y) ->
  JSONText.parseMembers (S f) (quote k ++ 58%N :: X) acc
  = JSONText.parseMembers f Y (setProp k v acc).
Proof.
  intros H. unfold quote, dquote. rewrite <- !app_assoc. simpl.
  rewrite parseChars_escape. simpl. by rewrite H.
Qed.

Lemma parseMembers_last (f : nat) (k X Y : jsstring) (v : JSON)
    (acc : list (jsstring * JSON)) :
  JSONText.parseValue f X = Some (v, 125%N :: Y) ->
  JSONText.parseMembers (S f) (quote k ++ 58%N :: X) acc
  = Some (JObject (setProp k v acc), Y).
Proof.
  intros H. unfold quote, dquote. rewrite <- !app_assoc. simpl.
  rewrite parseChars_escape. simpl. by rewrite H.
Qed.

Lemma reportText_members (title summary : jsstring) (key_points : list jsstring)
    (verdict : jsstring) :
  reportText title summary key_points verdict
  = (123 :: quote (js "title") ++ 58 :: quote title ++ 44
       :: quote (js "summary") ++ 58 :: quote summary ++ 44
       :: quote (js "key_points") ++ 58 :: 91 :: quoteList key_points ++ 93 :: 44
       :: quote (js "verdict") ++ 58 :: quote verdict ++ [125])%N.
Proof. reflexivity. Qed.

Lemma parseValue_reportText (f : nat) (title summary : jsstring)
    (key_points : list jsstring) (verdict : jsstring) :
  length key_points < f ->
  JSONText.parseValue (5 + f) (reportText title summary key_points verdict)
  = Some (reportValue title summary key_points verdict, []).
Proof.
  intros Hf. destruct f as [|f]; [lia|].
  rewrite reportText_members.
  change (JSONText.parseValue (5 + S f) (123%N :: ?Q))
    with (JSONText.parseMembers (S (S (S (S (S f))))) Q []).
  rewrite (parseMembers_more _ _ _ _ (JString title)) by apply parseValue_string.
  rewrite (parseMembers_more _ _ _ _ (JString summary)) by apply parseValue_string.
  rewrite (parseMembers_more _ _ _ _ (JArray (JString <$> key_points)))
    by (apply parseValue_strings; lia).
  rewrite (parseMembers_last _ _ _ _ (JString verdict)) by apply parseValue_string.
  reflexivity.
Qed.

Lemma quoteList_length (l : list jsstring) : length l <= length (quoteList l).
Proof.
  induction l as [|s [|s' l] IH]; [done|simpl; unfold quote, dquote; simpl; lia|].
  change (quoteList (s :: s' :: l)) with (quote s ++ 44%N :: quoteList (s' :: l)).
  rewrite length_app. simpl in *. lia.
Qed.

(** [JSON.parse] reads the text of a report back as its value. *)
Lemma parse_reportText (title summary : jsstring) (key_points : list jsstring)
    (verdict : jsstring) :
  JSONText.parse (reportText title summary key_points verdict)
  = Some (reportValue title summary key_points verdict).
Proof.
  unfold JSONText.parse.
  assert (Hlen : 3 + length key_points
                 <= length (reportText title summary key_points verdict)).
  { rewrite reportText_members. simpl. rewrite !length_app. simpl.
    rewrite !length_app. simpl. rewrite !length_app. simpl.
    pose proof (quoteList_length key_points). lia. }
  replace (2 * length (reportText title summary key_points verdict) + 2)
    with (5 + (2 * length (reportText title summary key_points verdict) + 2 - 5))
    by lia.
  rewrite parseValue_reportText by lia. done.
Qed.

Lemma forallb_isJString (l : list jsstring) :
  forallb isJString (JString <$> l) = true.
Proof. by induction l. Qed.

(** X5. The report survives the trip through the parser: when the service
    answers with the JSON text of a report (its four properties in the
    order of the schema, any strings, any number of key points, the
    quotation mark, the reverse solidus and the control characters
    escaped), [writeReport] returns the report with exactly that title,
    summary, list of key points and verdict. *)
Theorem writeReport_round_trip (rt : Runtime) (rawNotes : jsstring)
    (key : option jsstring) (ai : GoogleGenAI) (title summary : jsstring)
    (key_points : list jsstring) (verdict : jsstring) :
  getClient rt key = Normal ai ->
  generateContent rt WriteCall ai (writeRequest rawNotes)
  = Fulfilled {| text := Some (reportText title summary key_points verdict) |} ->
  exists rep,
    writeReport rt rawNotes key = Fulfilled rep
    /\ isResearchReport rep = true
    /\ field (js "title") rep = Some (JString title)
    /\ field (js "summary") rep = Some (JString summary)
    /\ field (js "key_points") rep = Some (JArray (JString <$> key_points))
    /\ field (js "verdict") rep = Some (JString verdict).
Proof.
  intros Hclient Hgen.
  exists (reportValue title summary key_points verdict).
  split; [|split; [apply forallb_isJString|done]].
  rewrite writeReport_unfold, Hclient, Hgen. cbn [text].
  pose proof (parse_reportText title summary key_points verdict) as Hp.
  destruct (reportText title summary key_points verdict) as [|c t] eqn:Ht.
  - by rewrite reportText_members in Ht.
  - by rewrite Hp.
Qed.

Lemma writeReport_round_trip_witness :
  exists rep,
    writeReport rt_ok (js "notes") (Some (js "k-123")) = Fulfilled rep
    /\ field (js "verdict") rep = Some (JString (js "Accelerating")).
Proof.
  destruct (writeReport_round_trip rt_ok (js "notes") (Some (js "k-123"))
              {| client_apiKey := js "k-123" |}
              (js "The EV Shift") (js "S") [js "a"; js "b"; js "c"]
              (js "Accelerating") eq_refl eq_refl)
    as (rep & Hw & _ & _ & _ & _ & Hv).
  by exists rep.
Defined.

(** ** Starting again *)



Lemma planTopic_truthy (rt : Runtime) (userQuery : jsstring)
    (key : option jsstring) (topic : jsstring) :
  blank userQuery = false ->
  planTopic rt userQuery key = Fulfilled topic ->
  truthy topic = true.
Proof.
  intros Hb. unfold planTopic.
  assert (Hq : truthy userQuery = true).
  { destruct userQuery; [done|done]. }
  destruct (getClient rt key) as [ai|e]; cbn; [|done].
  destruct (generateContent rt PlanCall ai (planRequest userQuery))
    as [|[[t|]]|e]; cbn; try done; [|by intros [= <-]].
  unfold or_else. by destruct (truthy (trim t)) eqn:Ht; intros [= <-].
Qed.

(** X17. After an accepted run that did not end in [complete], or whose
    report section is on the page, the error panel is on the page
    exactly when the run failed, and the banner of the refined topic is
    on the page exactly when planning succeeded. *)
Theorem panels_after_run (rt : Runtime) (st : AppState) :
  blank (query st) = false ->
  step (after (handleResearch rt) st) <> Step.complete
  \/ showsReport (after (handleResearch rt) st) = true ->
  (showsErrorPanel (after (handleResearch rt) st) = true
   <-> step (after (handleResearch rt) st) = Step.error)
  /\ (showsTopicBanner (after (handleResearch rt) st) = true
      <-> exists topic,
            planTopic rt (query st) (Some (apiKey st)) = Fulfilled topic).
Proof.
  intros Hb _. unfold after, showsErrorPanel, showsTopicBanner.
  pose proof (planTopic_truthy rt (query st) (Some (apiKey st))) as Ht.
  run_cases rt st Hb; stage_failure;
    (split; [split; done|]);
    (split; [try done; intros _; by eexists|]);
    try (by intros [? [=]]);
    intros _; cbn; by apply Ht.
Qed.

Lemma panels_after_run_witness :
  showsErrorPanel (after (handleResearch rt_mapFails) st_cars) = true
  /\ showsTopicBanner (after (handleResearch rt_mapFails) st_cars) = true.
Proof.
  assert (Hr : step (after (handleResearch rt_mapFails) st_cars) <> Step.complete
               \/ showsReport (after (handleResearch rt_mapFails) st_cars) = true).
  { left. vm_compute. discriminate. }
  destruct (panels_after_run rt_mapFails st_cars eq_refl Hr) as [H1 H2].
  split.
  - apply H1. reflexivity.
  - apply H2. eexists. reflexivity.
Defined.
